(** * Predictive-maintenance dashboard: telemetry merge pipeline and
      conversation engine

    A shallow embedding of the two React components of the front end:

    - [Dashboard] (the [fetchCharts] effect and the [isStale] memo), and
    - [Chatbot] ([sendMessage], [handleApprove], [resetChat], [removeImage]),
      in its current form and in the earlier form without image upload.

    JavaScript values coming out of [JSON.parse] are modelled by the
    inductive type [JS.value]; a thrown exception is an explicit [Throw];
    a React component's state is a record and every [setX] call is a
    state update threaded through a small state-and-exception monad. *)

From Stdlib Require Import List String Ascii Bool Arith ZArith QArith Qround Lia.
From Stdlib Require Import DecimalString Lqa.
Import ListNotations.
Set Warnings "-register-all".
Close Scope Q_scope.
Open Scope string_scope.

(* ================================================================== *)
(** * A fragment of JavaScript's dynamic semantics                      *)
(* ================================================================== *)

Module JS.

(** A JavaScript Number: not-a-number, an infinity, or a finite value.
    Every finite double is a rational; the two zeros are identified (the
    code never observes the sign of zero).  Rounding of arithmetic results
    is not modelled: the telemetry numbers are only compared and passed
    through, and the time arithmetic of [isStale] is on integers. *)
Inductive number : Type :=
| NaN
| Inf (negative : bool)
| Fin (q : Q).

(** What [JSON.parse] can build, plus [undefined]. An object is the list of
    its own properties, the first binding of a key being the live one. *)
Inductive value : Type :=
| VUndefined
| VNull
| VBool (b : bool)
| VNum (n : number)
| VStr (s : string)
| VArr (xs : list value)
| VObj (fields : list (string * value)).

Inductive exn : Type :=
| TypeError
| NetworkError.

Inductive result (A : Type) : Type :=
| Ok (a : A)
| Throw (e : exn).
Arguments Ok {A} a.
Arguments Throw {A} e.

Definition bindR {A B : Type} (r : result A) (k : A -> result B) : result B :=
  match r with
  | Ok a => k a
  | Throw e => Throw e
  end.

Declare Scope js_scope.
Delimit Scope js_scope with js.
Notation "'let?' x ':=' r 'in' k" := (bindR r (fun x => k))
  (at level 10, x name, r at level 100, k at level 200) : js_scope.
Open Scope js_scope.

(** ** Numbers *)

Definition num_of_Z (z : Z) : number := Fin (inject_Z z).
Definition num_of_nat (n : nat) : number := num_of_Z (Z.of_nat n).

(** [a < b] on Numbers: false as soon as one side is NaN. *)
Definition num_lt (a b : number) : bool :=
  match a, b with
  | NaN, _ | _, NaN => false
  | Inf true, Inf true => false
  | Inf true, _ => true
  | _, Inf true => false
  | Inf false, _ => false
  | Fin _, Inf false => true
  | Fin p, Fin q => negb (Qle_bool q p)
  end.

(** [a - b]. *)
Definition num_sub (a b : number) : number :=
  match a, b with
  | NaN, _ | _, NaN => NaN
  | Inf s, Inf s' => if Bool.eqb s s' then NaN else Inf s
  | Inf s, Fin _ => Inf s
  | Fin _, Inf s => Inf (negb s)
  | Fin p, Fin q => Fin (p - q)%Q
  end.

Definition Q_negative (q : Q) : bool := negb (Qle_bool 0%Q q).
Definition Q_is_zero (q : Q) : bool := Qeq_bool q 0%Q.

(** [a / b]; a zero divisor is taken as [+0]. *)
Definition num_div (a b : number) : number :=
  match a, b with
  | NaN, _ | _, NaN => NaN
  | Inf _, Inf _ => NaN
  | Inf s, Fin q => Inf (xorb s (Q_negative q))
  | Fin _, Inf _ => Fin 0%Q
  | Fin p, Fin q =>
      if Q_is_zero q
      then (if Q_is_zero p then NaN else Inf (Q_negative p))
      else Fin (p / q)%Q
  end.

(** [Math.floor]. *)
Definition Math_floor (a : number) : number :=
  match a with
  | Fin q => num_of_Z (Qfloor q)
  | _ => a
  end.

(** ** Truthiness, property access, indexing *)

Definition num_truthy (n : number) : bool :=
  match n with
  | NaN => false
  | Inf _ => true
  | Fin q => negb (Q_is_zero q)
  end.

(** ToBoolean. *)
Definition truthy (v : value) : bool :=
  match v with
  | VUndefined | VNull => false
  | VBool b => b
  | VNum n => num_truthy n
  | VStr s => negb (s =? "")
  | VArr _ | VObj _ => true
  end.

(** [a || b] *)
Definition or_else (a b : value) : value := if truthy a then a else b.

Fixpoint assoc (k : string) (fs : list (string * value)) : value :=
  match fs with
  | [] => VUndefined
  | (k', v) :: rest => if k =? k' then v else assoc k rest
  end.

(** [v.k] for a data field [k] (a key of the response, not a built-in
    property such as [length]): reading a property of [undefined] or
    [null] throws; primitives and arrays carry no data field. *)
Definition get_prop (k : string) (v : value) : result value :=
  match v with
  | VUndefined | VNull => Throw TypeError
  | VObj fs => Ok (assoc k fs)
  | _ => Ok VUndefined
  end.

Definition decimal (i : nat) : string := NilEmpty.string_of_uint (Nat.to_uint i).

(** [v[i]] for an array index [i]: out of range is [undefined], not an
    exception. *)
Definition index (v : value) (i : nat) : result value :=
  match v with
  | VUndefined | VNull => Throw TypeError
  | VArr xs => Ok (nth i xs VUndefined)
  | VStr s =>
      Ok (match String.get i s with
          | Some c => VStr (String c "")
          | None => VUndefined
          end)
  | VObj fs => Ok (assoc (decimal i) fs)
  | _ => Ok VUndefined
  end.

(** ** Array.prototype.map and slice *)

Fixpoint map_from {A : Type} (f : value -> nat -> result A) (i : nat)
    (xs : list value) : result (list A) :=
  match xs with
  | [] => Ok []
  | x :: rest =>
      let? y := f x i in
      let? ys := map_from f (S i) rest in
      Ok (y :: ys)
  end.

(** [v.map(f)]: only an array has [map]; the callback gets the element and
    its index. *)
Definition array_map {A : Type} (v : value) (f : value -> nat -> result A)
  : result (list A) :=
  match v with
  | VArr xs => map_from f 0 xs
  | _ => Throw TypeError
  end.

(** ** Strings

    A string is its sequence of code units, each below 256 (timestamps,
    metric names and typed text in Latin-1). *)

(** [s.substring(a, b)]: the two bounds are swapped when out of order and
    clamped to the length. *)
Definition js_substring (v : value) (a b : nat) : result string :=
  match v with
  | VStr s => Ok (substring (Nat.min a b) (Nat.max a b - Nat.min a b) s)
  | _ => Throw TypeError
  end.

(** WhiteSpace and LineTerminator code units: TAB, LF, VT, FF, CR, SP, NBSP. *)
Definition is_space (c : ascii) : bool :=
  let n := nat_of_ascii c in
  (Nat.leb 9 n && Nat.leb n 13) || Nat.eqb n 32 || Nat.eqb n 160.

Fixpoint trimStart (s : string) : string :=
  match s with
  | String c rest => if is_space c then trimStart rest else s
  | EmptyString => EmptyString
  end.

Fixpoint trimEnd (s : string) : string :=
  match s with
  | EmptyString => EmptyString
  | String c rest =>
      match trimEnd rest with
      | EmptyString => if is_space c then EmptyString else String c EmptyString
      | t => String c t
      end
  end.

(** [s.trim()] *)
Definition trim (s : string) : string := trimEnd (trimStart s).

Fixpoint map_string (f : ascii -> ascii) (s : string) : string :=
  match s with
  | EmptyString => EmptyString
  | String c rest => String (f c) (map_string f rest)
  end.

(** [toUpperCase] on one code unit (exact on ASCII). *)
Definition upper_ascii (c : ascii) : ascii :=
  let n := nat_of_ascii c in
  if Nat.leb 97 n && Nat.leb n 122 then ascii_of_nat (n - 32) else c.

(** [replace(/_/g, ' ')] on one code unit. *)
Definition underscore_to_space (c : ascii) : ascii :=
  if Ascii.eqb c "_"%char then " "%char else c.

(** ** The host's built-ins the components call but do not define *)

Record Runtime : Type := {
  (** [new Date(v).getTime()]: the time value in milliseconds since the
      epoch, [NaN] for an invalid date. *)
  Date_getTime : value -> number;
  (** StringToNumber of a string operand of [<]. *)
  StringToNumber : string -> number;
  (** ToPrimitive of an array or object operand of [<]. *)
  ToPrimitive : list (string * value) + list value -> value;
  (** ToString of a number, array or object inside a template literal. *)
  ToString_other : value -> string
}.

Section WithRuntime.
Context (rt : Runtime).

Definition prim (v : value) : value :=
  match v with
  | VArr xs => ToPrimitive rt (inr xs)
  | VObj fs => ToPrimitive rt (inl fs)
  | _ => v
  end.

Definition ToNumber (v : value) : number :=
  match v with
  | VUndefined => NaN
  | VNull => Fin 0%Q
  | VBool b => Fin (if b then 1%Q else 0%Q)
  | VNum n => n
  | VStr s => StringToNumber rt s
  | _ => NaN
  end.

(** [`${v}`] *)
Definition ToString (v : value) : string :=
  match v with
  | VUndefined => "undefined"
  | VNull => "null"
  | VBool b => if b then "true" else "false"
  | VStr s => s
  | _ => ToString_other rt v
  end.

(** [a < b]: two strings compare by code units, anything else as
    Numbers. *)
Definition js_lt (a b : value) : bool :=
  match prim a, prim b with
  | VStr s, VStr t => String.ltb s t
  | pa, pb => num_lt (ToNumber pa) (ToNumber pb)
  end.

End WithRuntime.

(** ** State and exceptions: a component's [setX] calls inside a function
       that may throw *)

Definition M (S A : Type) : Type := S -> result A * S.

Definition ret {S A : Type} (a : A) : M S A := fun s => (Ok a, s).

Definition throw {S A : Type} (e : exn) : M S A := fun s => (Throw e, s).

Definition bind {S A B : Type} (m : M S A) (k : A -> M S B) : M S B :=
  fun s =>
    match m s with
    | (Ok a, s') => k a s'
    | (Throw e, s') => (Throw e, s')
    end.

(** A pure computation that may throw. *)
Definition lift {S A : Type} (r : result A) : M S A := fun s => (r, s).

(** A state setter. *)
Definition set {S : Type} (f : S -> S) : M S unit := fun s => (Ok tt, f s).

Notation "x <- m ;; k" := (bind m (fun x => k))
  (at level 61, m at next level, right associativity) : js_scope.
Notation "m ;; k" := (bind m (fun _ => k))
  (at level 61, right associativity) : js_scope.

(** [try { body } catch (err) { handler }] *)
Definition try_catch {S : Type} (body : M S unit) (handler : exn -> M S unit)
  : M S unit :=
  fun s =>
    match body s with
    | (Ok tt, s') => (Ok tt, s')
    | (Throw e, s') => handler e s'
    end.

(** [try { body } catch (err) { handler } finally { fin }] *)
Definition try_catch_finally {S : Type} (body : M S unit)
    (handler : exn -> M S unit) (fin : M S unit) : M S unit :=
  fun s =>
    match try_catch body handler s with
    | (Ok tt, s') => fin s'
    | (Throw e, s') =>
        match fin s' with
        | (Ok tt, s'') => (Throw e, s'')
        | (Throw e', s'') => (Throw e', s'')
        end
    end.

(** The settlement of an [axios] request: rejected, or resolved with a
    response whose [data] field is the parsed body. *)
Inductive settlement : Type :=
| Rejected
| Resolved (data : value).

(** [await p] *)
Definition await {S : Type} (p : settlement) : M S value :=
  match p with
  | Rejected => throw NetworkError
  | Resolved data => ret data
  end.

(** The state a function leaves behind. *)
Definition exec {S A : Type} (m : M S A) (s : S) : S := snd (m s).

End JS.

(* ================================================================== *)
(** * Dashboard: the polling effects and the staleness memo             *)
(* ================================================================== *)

Module Dashboard.
Import JS.

(** One row of the line chart ([forecastData]). *)
Record chart_point : Type := {
  time : string;
  history : value;
  history_error : value;
  forecast : value
}.

(** One dot of the scatter charts ([anomalyData]); [a_time] is its [time]
    field. *)
Record anomaly_point : Type := {
  a_time : number;
  score : value;
  rawValue : value;
  status : string;
  dateStr : value
}.

(** One bar of the importance chart ([importanceData]). *)
Record importance_entry : Type := {
  feature : string;
  importance : value
}.

(** The [useState] cells of the component. *)
Record state : Type := {
  selectedTarget : string;
  summary : value;
  forecastData : list chart_point;
  anomalyData : list anomaly_point;
  importanceData : list importance_entry;
  threshold : value
}.

Definition initial : state := {|
  selectedTarget := "z_rms";
  summary := VNull;
  forecastData := [];
  anomalyData := [];
  importanceData := [];
  threshold := VNum (Fin 0%Q)
|}.

Definition setSummary (v : value) (st : state) : state :=
  {| selectedTarget := selectedTarget st; summary := v;
     forecastData := forecastData st; anomalyData := anomalyData st;
     importanceData := importanceData st; threshold := threshold st |}.

Definition setForecastData (d : list chart_point) (st : state) : state :=
  {| selectedTarget := selectedTarget st; summary := summary st;
     forecastData := d; anomalyData := anomalyData st;
     importanceData := importanceData st; threshold := threshold st |}.

Definition setAnomalyData (d : list anomaly_point) (st : state) : state :=
  {| selectedTarget := selectedTarget st; summary := summary st;
     forecastData := forecastData st; anomalyData := d;
     importanceData := importanceData st; threshold := threshold st |}.

Definition setThreshold (v : value) (st : state) : state :=
  {| selectedTarget := selectedTarget st; summary := summary st;
     forecastData := forecastData st; anomalyData := anomalyData st;
     importanceData := importanceData st; threshold := v |}.

Definition setImportanceData (d : list importance_entry) (st : state) : state :=
  {| selectedTarget := selectedTarget st; summary := summary st;
     forecastData := forecastData st; anomalyData := anomalyData st;
     importanceData := d; threshold := threshold st |}.

Definition setSelectedTarget (k : string) (st : state) : state :=
  {| selectedTarget := k; summary := summary st;
     forecastData := forecastData st; anomalyData := anomalyData st;
     importanceData := importanceData st; threshold := threshold st |}.

(** [fetchSummary]: [.then(res => setSummary(res.data)).catch(log)] *)
Definition fetchSummary (p : settlement) : M state unit :=
  try_catch (data <- await p ;; set (setSummary data)) (fun _ => ret tt).

(** The callback of [history_x.map]; [data] is [forecastRes.data]. *)
Definition history_point (data : value) (time : value) (i : nat)
  : result chart_point :=
  let? hy := get_prop "history_y" data in
  let? val := index hy i in
  let? flags := get_prop "history_flags" data in
  let? isError :=
    (if truthy flags
     then (let? flags' := get_prop "history_flags" data in index flags' i)
     else Ok (VBool false)) in
  let? t := js_substring time 11 16 in
  Ok {| time := t;
        history := val;
        history_error := if truthy isError then val else VNull;
        forecast := VNull |}.

(** The callback of [forecast_x.map]. *)
Definition forecast_point (data : value) (time : value) (i : nat)
  : result chart_point :=
  let? t := js_substring time 11 16 in
  let? fy := get_prop "forecast_y" data in
  let? v := index fy i in
  Ok {| time := t; history := VNull; history_error := VNull; forecast := v |}.

(** The value handed to [setForecastData]: [[...history, ...forecast]]. *)
Definition merge_series (data : value) : result (list chart_point) :=
  let? hx := get_prop "history_x" data in
  let? history := array_map hx (history_point data) in
  let? fx := get_prop "forecast_x" data in
  let? forecast := array_map fx (forecast_point data) in
  Ok (history ++ forecast)%list.

(** The callback of [item => ({feature: ..., importance: ...})]:
    [replace(/_/g, ' ').toUpperCase()] needs a string. *)
Definition importance_entry_of (item : value) (_ : nat)
  : result importance_entry :=
  let? f := get_prop "feature" item in
  let? name :=
    match f with
    | VStr s => Ok (map_string upper_ascii (map_string underscore_to_space s))
    | _ => Throw TypeError
    end in
  let? imp := get_prop "importance" item in
  Ok {| feature := name; importance := imp |}.

(** [v.slice(0, 10).map(...)]: a string has [slice] but its result has no
    [map]; anything else but an array has no [slice]. *)
Definition top_features (v : value) : result (list importance_entry) :=
  match v with
  | VArr xs => map_from importance_entry_of 0 (firstn 10 xs)
  | _ => Throw TypeError
  end.

Section WithRuntime.
Context (rt : Runtime).

(** The callback of [scores.map]. *)
Definition anomaly_point_of (currentThreshold timestamps rawValues : value)
    (score : value) (i : nat) : result anomaly_point :=
  let? ts := index timestamps i in
  let? raw := index rawValues i in
  Ok {| a_time := if truthy ts then Date_getTime rt ts else num_of_nat i;
        score := score;
        rawValue := or_else raw (VNum (Fin 0%Q));
        status := if js_lt rt score currentThreshold
                  then "Anomaly" else "Normal";
        dateStr := ts |}.

(** The value handed to [setAnomalyData], with the threshold it was
    classified against; [data] is [anomalyRes.data]. *)
Definition classify (data : value) : result (value * list anomaly_point) :=
  let? currentThreshold := get_prop "threshold" data in
  let? ts := get_prop "timestamps" data in
  let timestamps := or_else ts (VArr []) in
  let? raw := get_prop "raw_values" data in
  let rawValues := or_else raw (VArr []) in
  let? scores := get_prop "scores" data in
  let? anomalies :=
    array_map scores (anomaly_point_of currentThreshold timestamps rawValues) in
  Ok (currentThreshold, anomalies).

(** [await Promise.all([f, a, i])]: rejected as soon as one of the three
    is. *)
Definition Promise_all3 (pf pa pi : settlement) : M state (value * value * value) :=
  match pf, pa, pi with
  | Resolved f, Resolved a, Resolved i => ret (f, a, i)
  | _, _, _ => throw NetworkError
  end.

(** The [try] block of [fetchCharts], for the effect whose closure
    captured [target] as [selectedTarget]. *)
Definition fetchCharts_try (target : string) (pf pa pi : settlement)
  : M state unit :=
    (rs <- Promise_all3 pf pa pi ;;
     let '(forecastRes, anomalyRes, importanceRes) := rs in
     (* --- line chart --- *)
     merged <- lift (merge_series forecastRes) ;;
     set (setForecastData merged) ;;
     (* --- scatter charts --- *)
     ca <- lift (classify anomalyRes) ;;
     let '(currentThreshold, anomalies) := ca in
     set (setAnomalyData anomalies) ;;
     set (setThreshold currentThreshold) ;;
     (* --- importance --- *)
     let allImportance := importanceRes in
     guard <- lift (if truthy allImportance
                    then get_prop target allImportance
                    else Ok allImportance) ;;
     if truthy guard
     then (sel <- lift (get_prop target allImportance) ;;
           topFeatures <- lift (top_features sel) ;;
           set (setImportanceData topFeatures))
     else ret tt).

(** [try { ... } catch (err) { console.error(...) }] *)
Definition fetchCharts (target : string) (pf pa pi : settlement) : M state unit :=
  try_catch (fetchCharts_try target pf pa pi) (fun _ => ret tt).

(** The body of the [isStale] memo, with [now] the time value of
    [new Date()] at the moment it runs. *)
Definition isStale (summary : value) (now : number) : result bool :=
  let? absent :=
    (if negb (truthy summary) then Ok true
     else (let? ts := get_prop "data_timestamp" summary in
           Ok (negb (truthy ts)))) in
  if absent then Ok false
  else
    let? ts := get_prop "data_timestamp" summary in
    let sensorTime := Date_getTime rt ts in
    let diffMins :=
      Math_floor (num_div (num_sub now sensorTime) (Fin (inject_Z 60000))) in
    Ok (num_lt (Fin (inject_Z 30)) diffMins).

(** One pass of [fetchCharts] started as the [started]-th tick; its three
    requests settle together when the tick arrives. *)
Record tick : Type := {
  started : nat;
  target : string;
  forecastReq : settlement;
  anomalyReq : settlement;
  importanceReq : settlement
}.

Definition arrive (st : state) (t : tick) : state :=
  exec (fetchCharts (target t) (forecastReq t) (anomalyReq t) (importanceReq t)) st.

(** The ticks' continuations run one after the other, in the order in
    which their requests resolved. *)
Definition arrivals (ts : list tick) (st : state) : state :=
  fold_left arrive ts st.

End WithRuntime.

End Dashboard.

(* ================================================================== *)
(** * Chatbot: transcript, pending draft and the two server actions      *)
(* ================================================================== *)

Module Chatbot.
Import JS.

Record message : Type := {
  role : string;
  content : value;
  image : value
}.

(** The [useState] cells of the component, and the [alert] boxes it has
    raised so far. *)
Record state : Type := {
  isOpen : bool;
  messages : list message;
  input : string;
  draft : value;
  loading : bool;
  sessionId : string;
  imageFile : value;
  imageBase64 : value;
  alerts : list string
}.

(** The body of a POST to [/api/chat]. *)
Record chat_payload : Type := {
  message_text : string;
  session_id : string;
  image_base64 : value
}.

(** The state at mount; [sid] is the random session identifier. *)
Definition initial (sid : string) : state := {|
  isOpen := false;
  messages := [];
  input := "";
  draft := VStr "";
  loading := false;
  sessionId := sid;
  imageFile := VNull;
  imageBase64 := VNull;
  alerts := []
|}.

Definition setIsOpen (b : bool) (st : state) : state :=
  {| isOpen := b; messages := messages st; input := input st;
     draft := draft st; loading := loading st; sessionId := sessionId st;
     imageFile := imageFile st; imageBase64 := imageBase64 st;
     alerts := alerts st |}.

(** [setMessages(prev => f(prev))] *)
Definition setMessages (f : list message -> list message) (st : state) : state :=
  {| isOpen := isOpen st; messages := f (messages st); input := input st;
     draft := draft st; loading := loading st; sessionId := sessionId st;
     imageFile := imageFile st; imageBase64 := imageBase64 st;
     alerts := alerts st |}.

Definition setInput (s : string) (st : state) : state :=
  {| isOpen := isOpen st; messages := messages st; input := s;
     draft := draft st; loading := loading st; sessionId := sessionId st;
     imageFile := imageFile st; imageBase64 := imageBase64 st;
     alerts := alerts st |}.

Definition setDraft (d : value) (st : state) : state :=
  {| isOpen := isOpen st; messages := messages st; input := input st;
     draft := d; loading := loading st; sessionId := sessionId st;
     imageFile := imageFile st; imageBase64 := imageBase64 st;
     alerts := alerts st |}.

Definition setLoading (b : bool) (st : state) : state :=
  {| isOpen := isOpen st; messages := messages st; input := input st;
     draft := draft st; loading := b; sessionId := sessionId st;
     imageFile := imageFile st; imageBase64 := imageBase64 st;
     alerts := alerts st |}.

Definition setSessionId (s : string) (st : state) : state :=
  {| isOpen := isOpen st; messages := messages st; input := input st;
     draft := draft st; loading := loading st; sessionId := s;
     imageFile := imageFile st; imageBase64 := imageBase64 st;
     alerts := alerts st |}.

Definition setImageFile (f : value) (st : state) : state :=
  {| isOpen := isOpen st; messages := messages st; input := input st;
     draft := draft st; loading := loading st; sessionId := sessionId st;
     imageFile := f; imageBase64 := imageBase64 st;
     alerts := alerts st |}.

Definition setImageBase64 (b : value) (st : state) : state :=
  {| isOpen := isOpen st; messages := messages st; input := input st;
     draft := draft st; loading := loading st; sessionId := sessionId st;
     imageFile := imageFile st; imageBase64 := b;
     alerts := alerts st |}.

(** [alert(text)] *)
Definition alert (text : string) (st : state) : state :=
  {| isOpen := isOpen st; messages := messages st; input := input st;
     draft := draft st; loading := loading st; sessionId := sessionId st;
     imageFile := imageFile st; imageBase64 := imageBase64 st;
     alerts := (alerts st ++ [text])%list |}.

(** [[...prev, m]] *)
Definition append (m : message) (prev : list message) : list message :=
  (prev ++ [m])%list.

Definition removeImage (st : state) : state :=
  setImageBase64 VNull (setImageFile VNull st).

(** [resetChat]; [fresh] is the newly drawn session identifier. *)
Definition resetChat (fresh : string) (st : state) : state :=
  setSessionId fresh
    (removeImage (setInput "" (setDraft (VStr "") (setMessages (fun _ => []) st)))).

(** The outcome of [handleImageUpload] once the image has loaded: the
    re-encoded (or, on the fallback path, the raw) data URL is staged
    together with the file. *)
Definition stageImage (dataUrl file : value) (st : state) : state :=
  setImageFile file (setImageBase64 dataUrl st).

Definition connection_error : message :=
  {| role := "ai"; content := VStr "⚠️ Error connecting to server.";
     image := VUndefined |}.

(** ** sendMessage *)

(** [sendMessage] up to its [await]: [None] when it returned at the guard,
    otherwise the request it posted. [input], [imageBase64] and [sessionId]
    are the values of the render the handler was created in. *)
Definition sendMessage_start (st : state) : option chat_payload * state :=
  if negb (truthy (VStr (trim (input st)))) then (None, st)
  else
    let newMsg :=
      {| role := "user"; content := VStr (input st); image := imageBase64 st |} in
    let st1 := setMessages (append newMsg) st in
    let currentInput := input st in
    let currentImg := imageBase64 st in
    let st2 := setLoading true (removeImage (setInput "" st1)) in
    let payload :=
      {| message_text :=
           (if truthy (VStr (trim currentInput)) then trim currentInput
            else "Please analyze this image.");
         session_id := sessionId st;
         image_base64 := currentImg |} in
    (Some payload, st2).

(** [sendMessage] from its [await] on. *)
Definition sendMessage_resume (p : settlement) : M state unit :=
  try_catch_finally
    (data <- await p ;;
     response <- lift (get_prop "response" data) ;;
     let aiMsg := {| role := "ai"; content := response; image := VUndefined |} in
     set (setMessages (append aiMsg)) ;;
     d <- lift (get_prop "draft" data) ;;
     if truthy d
     then (d' <- lift (get_prop "draft" data) ;; set (setDraft d'))
     else ret tt)
    (fun _ => set (setMessages (append connection_error)))
    (set (setLoading false)).

(** A whole call whose request settles before anything else happens. *)
Definition sendMessage (p : settlement) (st : state) : state :=
  match sendMessage_start st with
  | (None, st') => st'
  | (Some _, st') => exec (sendMessage_resume p) st'
  end.

(** The send button's [disabled] attribute. *)
Definition sendButton_disabled (st : state) : bool :=
  loading st
  || (negb (truthy (VStr (trim (input st)))) && negb (truthy (imageBase64 st))).

(** ** The earlier version of the component (no image upload); its state
       has no image cells, which stay [null] here *)

Module Legacy.

Definition sendMessage_start (st : state) : option chat_payload * state :=
  if negb (truthy (VStr (trim (input st)))) then (None, st)
  else
    let newMsg :=
      {| role := "user"; content := VStr (input st); image := VUndefined |} in
    let st1 := setMessages (append newMsg) st in
    let st2 := setLoading true (setInput "" st1) in
    (Some {| message_text := input st;
             session_id := sessionId st;
             image_base64 := VUndefined |}, st2).

Definition sendMessage_resume (p : settlement) : M state unit :=
  try_catch_finally
    (data <- await p ;;
     response <- lift (get_prop "response" data) ;;
     let aiMsg := {| role := "ai"; content := response; image := VUndefined |} in
     set (setMessages (append aiMsg)) ;;
     d <- lift (get_prop "draft" data) ;;
     if truthy d
     then (d' <- lift (get_prop "draft" data) ;; set (setDraft d'))
     else ret tt)
    (fun _ => set (setMessages (append connection_error)))
    (set (setLoading false)).

Definition sendMessage (p : settlement) (st : state) : state :=
  match sendMessage_start st with
  | (None, st') => st'
  | (Some _, st') => exec (sendMessage_resume p) st'
  end.

End Legacy.

Section WithRuntime.
Context (rt : Runtime).

(** ** handleApprove *)

Definition approved (work_order_id : value) : message :=
  {| role := "ai";
     content := VStr ("✅ Success! Work Order " ++ ToString rt work_order_id
                      ++ " has been saved to the database.");
     image := VUndefined |}.

(** [handleApprove] up to its [await]: the posted [session_id]. *)
Definition handleApprove_start (st : state) : string * state :=
  (sessionId st, setLoading true st).

(** [handleApprove] from its [await] on. *)
Definition handleApprove_resume (p : settlement) : M state unit :=
  try_catch_finally
    (data <- await p ;;
     set (setDraft (VStr "")) ;;
     id <- lift (get_prop "work_order_id" data) ;;
     set (setMessages (append (approved id))))
    (fun _ => set (alert "Failed to approve work order. Please check the console."))
    (set (setLoading false)).

Definition handleApprove (p : settlement) (st : state) : state :=
  exec (handleApprove_resume p) (snd (handleApprove_start st)).

(** ** What can happen to the component *)

Inductive event : Type :=
| Open (b : bool)
| Type_ (s : string)
| StageImage (dataUrl file : value)
| RemoveImage
| ResetChat (fresh : string)
| Dismiss
| SendStart
| SendResume (p : settlement)
| ApproveStart
| ApproveResume (p : settlement).

Definition step (st : state) (e : event) : state :=
  match e with
  | Open b => setIsOpen b st
  | Type_ s => setInput s st
  | StageImage d f => stageImage d f st
  | RemoveImage => removeImage st
  | ResetChat fresh => resetChat fresh st
  | Dismiss => setDraft (VStr "") st
  | SendStart => snd (sendMessage_start st)
  | SendResume p => exec (sendMessage_resume p) st
  | ApproveStart => snd (handleApprove_start st)
  | ApproveResume p => exec (handleApprove_resume p) st
  end.

Definition run (es : list event) (st : state) : state := fold_left step es st.

(** The draft box is rendered when [isOpen && draft]. *)
Definition draft_displayed (st : state) : bool := isOpen st && truthy (draft st).

End WithRuntime.

End Chatbot.

(* ================================================================== *)
(** * Dashboard: what the render reads, and what can happen to the state *)
(* ================================================================== *)

Module DashboardView.
Import JS Dashboard.

(** [s.includes(pat)] *)
Fixpoint includes (pat s : string) : bool :=
  if prefix pat s then true
  else
    match s with
    | EmptyString => false
    | String _ rest => includes pat rest
    end.

Fixpoint entries_unseen (seen : list string) (fs : list (string * value))
  : list (string * value) :=
  match fs with
  | [] => []
  | (k, v) :: rest =>
      if existsb (String.eqb k) seen then entries_unseen seen rest
      else (k, v) :: entries_unseen (k :: seen) rest
  end.

(** The own properties of an object, each key once (its live binding),
    in the order of their first occurrence. *)
Definition own_entries (fs : list (string * value)) : list (string * value) :=
  entries_unseen [] fs.

Fixpoint indexed_from (i : nat) (xs : list value) : list (string * value) :=
  match xs with
  | [] => []
  | x :: rest => (decimal i, x) :: indexed_from (S i) rest
  end.

Fixpoint chars (s : string) : list value :=
  match s with
  | EmptyString => []
  | String c rest => VStr (String c EmptyString) :: chars rest
  end.

(** [Object.entries(v)], for objects whose keys are not array indices
    (those would come first, in ascending order). *)
Definition Object_entries (v : value) : result (list (string * value)) :=
  match v with
  | VUndefined | VNull => Throw TypeError
  | VObj fs => Ok (own_entries fs)
  | VArr xs => Ok (indexed_from 0 xs)
  | VStr s => Ok (indexed_from 0 (chars s))
  | _ => Ok []
  end.

(** The callback of the sensor tiles: [null] for an error-flag column,
    otherwise the tile's key (also what a click hands to
    [setSelectedTarget]) and the value it shows. *)
Definition sensor_tile (entry : string * value) : option (string * value) :=
  let '(key, val) := entry in
  if includes "_error_flag" key then None else Some (key, val).

(** [Object.entries(summary.metrics).map(...)] *)
Definition sensor_tiles (summary : value) : result (list (option (string * value))) :=
  let? metrics := get_prop "metrics" summary in
  let? entries := Object_entries metrics in
  Ok (map sensor_tile entries).

(** The two props of [IsoSeverityChart]:
    [summary.metrics.z_rms || 0] and [summary.metrics.x_rms || 0]. *)
Definition iso_props (summary : value) : result (value * value) :=
  let? metrics := get_prop "metrics" summary in
  let? z := get_prop "z_rms" metrics in
  let? metrics' := get_prop "metrics" summary in
  let? x := get_prop "x_rms" metrics' in
  Ok (or_else z (VNum (Fin 0%Q)), or_else x (VNum (Fin 0%Q))).

Section WithRuntime.
Context (rt : Runtime).

(** The fill of a dot of the raw-signal scatter chart. *)
Definition raw_cell_fill (st : state) (entry : anomaly_point) : string :=
  if js_lt rt (score entry) (threshold st) then "#ef4444" else "#93c5fd".

(** The fill of a dot of the score scatter chart. *)
Definition idk_cell_fill (st : state) (entry : anomaly_point) : string :=
  if js_lt rt (score entry) (threshold st) then "#ef4444" else "#8b5cf6".

(** What can happen to the dashboard's chart state: a summary request or a
    pass of [fetchCharts] settles, or a sensor tile is clicked. *)
Inductive event : Type :=
| SummarySettled (p : settlement)
| ChartsSettled (t : tick)
| TileClicked (key : string).

Definition step (st : state) (e : event) : state :=
  match e with
  | SummarySettled p => exec (fetchSummary p) st
  | ChartsSettled t => arrive rt st t
  | TileClicked key => setSelectedTarget key st
  end.

Definition run (es : list event) (st : state) : state := fold_left step es st.

End WithRuntime.

End DashboardView.

(* ================================================================== *)
(** * Dashboard: the work-order history                                 *)
(* ================================================================== *)

Module WorkOrders.
Import JS.

(** The three [useState] cells of the work-order panel. *)
Record state : Type := {
  workOrders : value;
  selectedWorkOrder : value;
  workOrdersLoading : bool
}.

Definition initial : state :=
  {| workOrders := VArr []; selectedWorkOrder := VNull; workOrdersLoading := false |}.


Definition setSelectedWorkOrder (v : value) (st : state) : state :=
  {| workOrders := workOrders st; selectedWorkOrder := v;
     workOrdersLoading := workOrdersLoading st |}.





(** The text of the detail pane: nothing without a selection, otherwise
    [selectedWorkOrder.content || selectedWorkOrder.preview]. *)
Definition details (st : state) : result (option value) :=
  if truthy (selectedWorkOrder st)
  then
    (let? content := get_prop "content" (selectedWorkOrder st) in
     if truthy content then Ok (Some content)
     else (let? preview := get_prop "preview" (selectedWorkOrder st) in
           Ok (Some preview)))
  else Ok None.

End WorkOrders.

(* ================================================================== *)
(** * Chatbot: the size of the re-encoded image                         *)
(* ================================================================== *)

Module ImageUpload.

Definition MAX_DIMENSION : Q := inject_Z 1024.

Section WithRounding.
(** The rounding of an arithmetic result to a Number. *)
Context (rnd : Q -> Q).

(** The [width] and [height] that [handleImageUpload] gives the canvas,
    from the size of the loaded image. *)
Definition resize (width height : Q) : Q * Q :=
  if negb (Qle_bool width height) && negb (Qle_bool width MAX_DIMENSION)
  then (MAX_DIMENSION, rnd (height * rnd (MAX_DIMENSION / width)))
  else if negb (Qle_bool height MAX_DIMENSION)
  then (rnd (width * rnd (MAX_DIMENSION / height)), MAX_DIMENSION)
  else (width, height).

(** [canvas.width = width; canvas.height = height]: the two attributes
    are integers and keep the integer part of what they are given. *)
Definition canvas_size (width height : Q) : Z * Z :=
  (Qfloor (fst (resize width height)), Qfloor (snd (resize width height))).

End WithRounding.

End ImageUpload.

(* ================================================================== *)
(** * Dashboard: the axis of the severity chart                         *)
(* ================================================================== *)

Module IsoSeverity.

(** The Number the literal [1.1] denotes (the double nearest to it). *)
Definition one_point_one : Q := 2476979795053773 # 2251799813685248.

(** [Math.max(a, b)] on finite Numbers. *)
Definition Math_max (a b : Q) : Q := if Qle_bool a b then b else a.

Section WithRounding.
(** The rounding of an arithmetic result to a Number. *)
Context (rnd : Q -> Q).

(** [maxVal] of [IsoSeverityChart], for finite readings. *)
Definition maxVal (zRms xRms : Q) : Q := Math_max (Math_max zRms xRms) (11 # 2).

(** [xAxisMax = Math.ceil(maxVal * 1.1)] *)
Definition xAxisMax (zRms xRms : Q) : Z :=
  Qceiling (rnd (maxVal zRms xRms * one_point_one)).

End WithRounding.

End IsoSeverity.

(* ================================================================== *)
(** * Sample host and sample data, for running the code                  *)
(* ================================================================== *)

Module Samples.
Import JS.

(** A host that knows one date string (the epoch) and prints nothing
    fancy; enough for the concrete runs below. *)
Definition epoch_host : Runtime := {|
  Date_getTime := fun v =>
    match v with
    | VStr s => if s =? "1970-01-01T00:00:00.000Z" then Fin 0%Q else NaN
    | VNum n => n
    | _ => NaN
    end;
  StringToNumber := fun _ => NaN;
  ToPrimitive := fun _ => VStr "[object Object]";
  ToString_other := fun _ => "[object Object]"
|}.

Definition jnum (z : Z) : value := VNum (num_of_Z z).

(** A forecast response of the documented shape. *)
Definition sample_forecast : value :=
  VObj [ ("history_x", VArr [VStr "2024-01-01T10:00:00"; VStr "2024-01-01T10:05:00"]);
         ("history_y", VArr [jnum 3; jnum 4]);
         ("history_flags", VArr [VBool false; VBool true]);
         ("forecast_x", VArr [VStr "2024-01-01T10:10:00"]);
         ("forecast_y", VArr [jnum 5]) ].

(** A forecast response whose [history_y] lacks its only entry. *)
Definition short_history : value :=
  VObj [ ("history_x", VArr [VStr "2024-01-01T10:00:00"]);
         ("history_y", VArr []);
         ("forecast_x", VArr []);
         ("forecast_y", VArr []) ].

(** An anomaly response of the documented shape. *)
Definition sample_anomalies : value :=
  VObj [ ("threshold", jnum 5);
         ("timestamps", VArr [VStr "1970-01-01T00:00:00.000Z"; VStr "1970-01-01T00:00:00.000Z"]);
         ("raw_values", VArr [jnum 20; jnum 21]);
         ("scores", VArr [jnum 3; jnum 7]) ].

(** An anomaly response without [timestamps] and [raw_values]. *)
Definition bare_scores : value :=
  VObj [ ("threshold", jnum 5); ("scores", VArr [jnum 3; jnum 7]) ].

(** An anomaly response without [scores]. *)
Definition anomalies_without_scores : value :=
  VObj [ ("threshold", jnum 5);
         ("timestamps", VArr [VStr "1970-01-01T00:00:00.000Z"]);
         ("raw_values", VArr [jnum 20]) ].

Definition sample_importance : value :=
  VObj [ ("z_rms", VArr [ VObj [("feature", VStr "motor_temp"); ("importance", jnum 7)] ]) ].

Definition epoch_summary : value :=
  VObj [ ("data_timestamp", VStr "1970-01-01T00:00:00.000Z");
         ("iso_zone", VStr "A") ].

(** Two overlapping passes of [fetchCharts]: the first started gets the
    short responses, the second started the full ones. *)
Definition older_tick : Dashboard.tick :=
  {| Dashboard.started := 1; Dashboard.target := "z_rms";
     Dashboard.forecastReq := Resolved short_history;
     Dashboard.anomalyReq := Resolved bare_scores;
     Dashboard.importanceReq := Resolved sample_importance |}.

Definition newer_tick : Dashboard.tick :=
  {| Dashboard.started := 2; Dashboard.target := "z_rms";
     Dashboard.forecastReq := Resolved sample_forecast;
     Dashboard.anomalyReq := Resolved sample_anomalies;
     Dashboard.importanceReq := Resolved sample_importance |}.

(** A chat response with a reply and a draft. *)
Definition draft_reply (text draftText : string) : value :=
  VObj [ ("response", VStr text); ("draft", VStr draftText) ].

(** A staged image and an empty text box. *)
Definition image_only : Chatbot.state :=
  Chatbot.stageImage (VStr "data:image/jpeg;base64,AAAA") (VStr "photo.jpg")
    (Chatbot.initial "session-abc").

End Samples.

(** The pending draft is the empty string (no draft) or a truthy value. *)
Definition draft_ok (st : Chatbot.state) : Prop :=
  Chatbot.draft st = JS.VStr "" \/ JS.truthy (Chatbot.draft st) = true.

(* ================================================================== *)
(** * Properties                                                        *)
(* ================================================================== *)

Import JS Samples.

(** ** Array.prototype.map *)

Section MapFrom.
Context {A : Type} (f : value -> nat -> result A).

Lemma map_from_length (xs : list value) :
  forall k ys, map_from f k xs = Ok ys -> List.length ys = List.length xs.
Proof.
  induction xs as [|x xs IH]; intros k ys H; simpl in H.
  - now inversion H.
  - destruct (f x k) as [y|e]; simpl in H; [|discriminate].
    destruct (map_from f (S k) xs) as [ys'|e] eqn:E; simpl in H; [|discriminate].
    inversion H; subst. simpl. f_equal. eauto.
Qed.

Lemma map_from_nth_error (xs : list value) :
  forall k ys i x,
    map_from f k xs = Ok ys ->
    nth_error xs i = Some x ->
    exists y, f x (k + i) = Ok y /\ nth_error ys i = Some y.
Proof.
  induction xs as [|x0 xs IH]; intros k ys i x H Hx.
  - destruct i; discriminate.
  - simpl in H.
    destruct (f x0 k) as [y0|e] eqn:E0; simpl in H; [|discriminate].
    destruct (map_from f (S k) xs) as [ys'|e] eqn:E; simpl in H; [|discriminate].
    inversion H; subst. destruct i as [|i]; simpl in Hx.
    + inversion Hx; subst. exists y0. now rewrite Nat.add_0_r.
    + destruct (IH _ _ _ _ E Hx) as (y & Hy & Hn).
      exists y. split; [|exact Hn].
      now rewrite <- plus_n_Sm.
Qed.

Lemma map_from_total (xs : list value) :
  forall k,
    (forall i x, nth_error xs i = Some x -> exists y, f x (k + i) = Ok y) ->
    exists ys, map_from f k xs = Ok ys.
Proof.
  induction xs as [|x0 xs IH]; intros k H; simpl.
  - now exists [].
  - destruct (H 0 x0 eq_refl) as (y0 & Hy0).
    rewrite Nat.add_0_r in Hy0. rewrite Hy0. simpl.
    destruct (IH (S k)) as (ys & Hys).
    + intros i x Hx. destruct (H (S i) x Hx) as (y & Hy).
      exists y. now rewrite <- plus_n_Sm in Hy.
    + rewrite Hys. simpl. now eexists.
Qed.

Lemma map_from_throws (xs : list value) :
  forall k i x e,
    nth_error xs i = Some x ->
    f x (k + i) = Throw e ->
    exists e', map_from f k xs = Throw e'.
Proof.
  induction xs as [|x0 xs IH]; intros k i x e Hx He.
  - destruct i; discriminate.
  - simpl. destruct i as [|i]; simpl in Hx.
    + inversion Hx; subst. rewrite Nat.add_0_r in He. rewrite He.
      now eexists.
    + destruct (f x0 k); simpl; [|now eexists].
      rewrite <- plus_n_Sm in He.
      destruct (IH (S k) i x e Hx He) as (e' & ->). now eexists.
Qed.

End MapFrom.

Lemma nth_error_map_Some {A B : Type} (g : A -> B) (l : list A) (i : nat) (y : B) :
  nth_error (map g l) i = Some y -> exists x, nth_error l i = Some x /\ y = g x.
Proof.
  rewrite nth_error_map. destruct (nth_error l i) as [x|]; simpl; intros H.
  - inversion H. now exists x.
  - discriminate.
Qed.

Lemma nth_map_default {A B : Type} (g : A -> B) (l : list A) (i : nat) (d : A) (d' : B) :
  i < List.length l -> nth i (map g l) d' = g (nth i l d).
Proof.
  intros H. rewrite (nth_indep _ d' (g d)); [apply map_nth | now rewrite length_map].
Qed.

(** ** The series merger *)

Import Dashboard.

(** The observed point the merger builds at index [i] from the timestamp
    [t], the value array [hy] and the flag array [fl]. *)
Lemma history_point_arrays (data flags : value) (hy fl : list value) (t : string) (i : nat) :
  get_prop "history_y" data = Ok (VArr hy) ->
  get_prop "history_flags" data = Ok flags ->
  (truthy flags = false /\ fl = [] \/ flags = VArr fl) ->
  history_point data (VStr t) i =
    Ok {| time := substring 11 5 t;
          history := nth i hy VUndefined;
          history_error :=
            if truthy (nth i fl VUndefined) then nth i hy VUndefined else VNull;
          forecast := VNull |}.
Proof.
  intros Hy Hf Hfl. unfold history_point. rewrite Hy, Hf. simpl.
  destruct Hfl as [[T ->] | ->]; simpl.
  - rewrite T. simpl. now destruct i.
  - reflexivity.
Qed.

Lemma forecast_point_arrays (data : value) (fy : list value) (t : string) (j : nat) :
  get_prop "forecast_y" data = Ok (VArr fy) ->
  forecast_point data (VStr t) j =
    Ok {| time := substring 11 5 t; history := VNull; history_error := VNull;
          forecast := nth j fy VUndefined |}.
Proof.
  intros Hy. unfold forecast_point. simpl. now rewrite Hy.
Qed.

(** Whatever the lengths of the value and flag arrays, the merger returns
    one point per timestamp, history first. *)
Lemma merge_series_arrays (data flags : value) (hx fx : list string)
    (hy fy fl : list value) :
  get_prop "history_x" data = Ok (VArr (map VStr hx)) ->
  get_prop "history_y" data = Ok (VArr hy) ->
  get_prop "history_flags" data = Ok flags ->
  (truthy flags = false /\ fl = [] \/ flags = VArr fl) ->
  get_prop "forecast_x" data = Ok (VArr (map VStr fx)) ->
  get_prop "forecast_y" data = Ok (VArr fy) ->
  exists pts,
    merge_series data = Ok pts /\
    List.length pts = List.length hx + List.length fx /\
    (forall i t, nth_error hx i = Some t ->
       nth_error pts i =
         Some {| time := substring 11 5 t;
                 history := nth i hy VUndefined;
                 history_error :=
                   if truthy (nth i fl VUndefined) then nth i hy VUndefined
                   else VNull;
                 forecast := VNull |}) /\
    (forall j t, nth_error fx j = Some t ->
       nth_error pts (List.length hx + j) =
         Some {| time := substring 11 5 t; history := VNull;
                 history_error := VNull;
                 forecast := nth j fy VUndefined |}).
Proof.
  intros Hhx Hhy Hf Hfl Hfx Hfy.
  destruct (map_from_total (history_point data) (map VStr hx) 0) as (H & EH).
  { intros i x Hx. apply nth_error_map_Some in Hx as (t & _ & ->).
    rewrite (history_point_arrays _ _ _ _ _ _ Hhy Hf Hfl). now eexists. }
  destruct (map_from_total (forecast_point data) (map VStr fx) 0) as (F & EF).
  { intros j x Hx. apply nth_error_map_Some in Hx as (t & _ & ->).
    rewrite (forecast_point_arrays _ _ _ _ Hfy). now eexists. }
  assert (LH : List.length H = List.length hx).
  { rewrite (map_from_length _ _ _ _ EH). apply length_map. }
  assert (LF : List.length F = List.length fx).
  { rewrite (map_from_length _ _ _ _ EF). apply length_map. }
  exists (H ++ F)%list. repeat split.
  - unfold merge_series. rewrite Hhx. simpl. rewrite EH. simpl.
    rewrite Hfx. simpl. now rewrite EF.
  - rewrite length_app. now rewrite LH, LF.
  - intros i t Ht.
    assert (Hi : nth_error (map VStr hx) i = Some (VStr t))
      by (rewrite nth_error_map, Ht; reflexivity).
    destruct (map_from_nth_error _ _ _ _ _ _ EH Hi) as (y & Hy & Hn).
    rewrite (history_point_arrays _ _ _ _ _ _ Hhy Hf Hfl) in Hy.
    inversion Hy; subst y.
    rewrite nth_error_app1; [exact Hn|].
    rewrite LH. apply nth_error_Some. now rewrite Ht.
  - intros j t Ht.
    assert (Hj : nth_error (map VStr fx) j = Some (VStr t))
      by (rewrite nth_error_map, Ht; reflexivity).
    destruct (map_from_nth_error _ _ _ _ _ _ EF Hj) as (y & Hy & Hn).
    rewrite (forecast_point_arrays _ _ _ _ Hfy) in Hy.
    inversion Hy; subst y.
    rewrite nth_error_app2; rewrite LH; [|lia].
    replace (List.length hx + j - List.length hx) with j by lia.
    exact Hn.
Qed.

(** ** One pass of [fetchCharts] *)

Ltac run_fetch :=
  unfold arrivals, arrive, exec, fetchCharts, fetchCharts_try, fetchSummary,
    try_catch, bind, lift, set, ret, throw, await, Promise_all3;
  simpl.

Section FetchCharts.
Context (rt : Runtime).

(** A rejected request: the [catch] block runs before any setter. *)
Lemma fetchCharts_rejected (target : string) (pf pa pi : settlement) (st : state) :
  pf = Rejected \/ pa = Rejected \/ pi = Rejected ->
  fetchCharts_try rt target pf pa pi st = (Throw NetworkError, st) /\
  exec (fetchCharts rt target pf pa pi) st = st.
Proof.
  intros H. destruct pf, pa, pi; run_fetch; auto.
  destruct H as [H | [H | H]]; discriminate.
Qed.

(** The forecast response cannot be merged: nothing was set yet. *)
Lemma fetchCharts_merge_throws (target : string) (f a imp : value) (e : exn)
    (st : state) :
  merge_series f = Throw e ->
  exec (fetchCharts rt target (Resolved f) (Resolved a) (Resolved imp)) st = st.
Proof. intros H. run_fetch. now rewrite H. Qed.

(** The anomaly response cannot be classified: the line chart has
    already been replaced. *)
Lemma fetchCharts_classify_throws (target : string) (f a imp : value)
    (merged : list chart_point) (e : exn) (st : state) :
  merge_series f = Ok merged ->
  classify rt a = Throw e ->
  fetchCharts_try rt target (Resolved f) (Resolved a) (Resolved imp) st
    = (Throw e, setForecastData merged st) /\
  exec (fetchCharts rt target (Resolved f) (Resolved a) (Resolved imp)) st
    = setForecastData merged st.
Proof. intros H1 H2. run_fetch. now rewrite H1, H2. Qed.

(** Both responses are usable: line chart, scatter data and threshold
    are those of this pass, whatever the importance response does. *)
Lemma fetchCharts_resolved (target : string) (f a imp : value)
    (merged : list chart_point) (thr : value) (pts : list anomaly_point)
    (st : state) :
  merge_series f = Ok merged ->
  classify rt a = Ok (thr, pts) ->
  let st' := exec (fetchCharts rt target (Resolved f) (Resolved a) (Resolved imp)) st in
  forecastData st' = merged /\ anomalyData st' = pts /\ threshold st' = thr.
Proof.
  intros H1 H2. run_fetch. rewrite H1, H2. simpl.
  destruct (truthy imp) eqn:E; simpl; rewrite ?E; simpl; auto.
  destruct (get_prop target imp) as [g|] eqn:G; simpl; auto.
  destruct (truthy g); simpl; rewrite ?G; simpl; auto.
  destruct (top_features g); simpl; auto.
Qed.

End FetchCharts.

Lemma truthy_nth_bools (fl : list bool) :
  forall i, truthy (nth i (map VBool fl) VUndefined) = nth i fl false.
Proof.
  induction fl as [|b fl IH]; intros [|i]; simpl; auto.
Qed.

Lemma nth_map_Some {A B : Type} (g : A -> B) (l : list A) (i : nat) (x : A) (d : B) :
  nth_error l i = Some x -> nth i (map g l) d = g x.
Proof.
  revert i. induction l as [|a l IH]; intros [|i] H; simpl in *;
    try discriminate.
  - now inversion H.
  - auto.
Qed.

Lemma nth_error_in_range {A : Type} (l : list A) (i : nat) :
  i < List.length l -> exists x, nth_error l i = Some x.
Proof.
  intros H. destruct (nth_error l i) as [x|] eqn:E; [now exists x|].
  apply nth_error_None in E. lia.
Qed.

(** C1. For a forecast response whose value arrays are as long as their
    timestamp arrays ([history_flags] being optional), the merged sequence
    handed to [setForecastData] has [len(history_x) + len(forecast_x)]
    points, the history points first and in the order of the arrays, then
    the forecast points, nothing dropped or reordered. A history point has
    [forecast = null]; its [history_error] is its [history] value when its
    flag is true and [null] otherwise, so the two channels agree exactly
    when the flag is true. A forecast point has [history = null] and
    [history_error = null]. *)
Theorem merge_series_concat (rt : Runtime) (data flags : value)
    (hx fx : list string) (hy fy : list number) (fl : list bool) :
  get_prop "history_x" data = Ok (VArr (map VStr hx)) ->
  get_prop "history_y" data = Ok (VArr (map VNum hy)) ->
  get_prop "history_flags" data = Ok flags ->
  (truthy flags = false /\ fl = [] \/ flags = VArr (map VBool fl)) ->
  get_prop "forecast_x" data = Ok (VArr (map VStr fx)) ->
  get_prop "forecast_y" data = Ok (VArr (map VNum fy)) ->
  List.length hy = List.length hx ->
  List.length fy = List.length fx ->
  exists pts,
    merge_series data = Ok pts /\
    (forall target a imp st,
        forecastData
          (exec (fetchCharts rt target (Resolved data) (Resolved a) (Resolved imp)) st)
        = pts) /\
    List.length pts = List.length hx + List.length fx /\
    (forall i, i < List.length hx ->
       exists t v,
         nth_error hx i = Some t /\ nth_error hy i = Some v /\
         nth_error pts i =
           Some {| time := substring 11 5 t;
                   history := VNum v;
                   history_error := if nth i fl false then VNum v else VNull;
                   forecast := VNull |}) /\
    (forall j, j < List.length fx ->
       exists t v,
         nth_error fx j = Some t /\ nth_error fy j = Some v /\
         nth_error pts (List.length hx + j) =
           Some {| time := substring 11 5 t;
                   history := VNull;
                   history_error := VNull;
                   forecast := VNum v |}) /\
    (forall i p, i < List.length hx -> nth_error pts i = Some p ->
       forecast p = VNull /\
       (history_error p = history p <-> nth i fl false = true)).
Proof.
  intros Hhx Hhy Hf Hfl Hfx Hfy Lh Lf.
  assert (Hfl' : truthy flags = false /\ map VBool fl = [] \/ flags = VArr (map VBool fl)).
  { destruct Hfl as [[T ->] | ->]; auto. }
  destruct (merge_series_arrays data flags hx fx _ _ _ Hhx Hhy Hf Hfl' Hfx Hfy)
    as (pts & Hm & Hlen & Hh & Hfc).
  assert (Hhist : forall i, i < List.length hx ->
     exists t v,
       nth_error hx i = Some t /\ nth_error hy i = Some v /\
       nth_error pts i =
         Some {| time := substring 11 5 t;
                 history := VNum v;
                 history_error := if nth i fl false then VNum v else VNull;
                 forecast := VNull |}).
  { intros i Hi.
    destruct (nth_error_in_range hx i Hi) as (t & Ht).
    destruct (nth_error_in_range hy i) as (v & Hv); [lia|].
    exists t, v. repeat split; auto.
    rewrite (Hh i t Ht), truthy_nth_bools.
    now rewrite (nth_map_Some VNum hy i v VUndefined Hv). }
  exists pts. split; [exact Hm|]. split; [|split; [exact Hlen|]].
  { intros target a imp st.
    destruct (classify rt a) as [[thr an]|e] eqn:C.
    - now destruct (fetchCharts_resolved rt target data a imp pts thr an st Hm C).
    - destruct (fetchCharts_classify_throws rt target data a imp pts e st Hm C)
        as [_ ->].
      reflexivity. }
  split; [exact Hhist|]. split.
  - intros j Hj.
    destruct (nth_error_in_range fx j Hj) as (t & Ht).
    destruct (nth_error_in_range fy j) as (v & Hv); [lia|].
    exists t, v. split; [exact Ht|]. split; [exact Hv|].
    rewrite (Hfc j t Ht).
    now rewrite (nth_map_Some VNum fy j v VUndefined Hv).
  - intros i p Hi Hp.
    destruct (Hhist i Hi) as (t & v & _ & _ & E).
    rewrite E in Hp. inversion Hp; subst p; simpl.
    split; [reflexivity|].
    destruct (nth i fl false); split; intros; try reflexivity; discriminate.
Qed.

Lemma merge_series_concat_witness :
  exists pts,
    merge_series sample_forecast = Ok pts /\ List.length pts = 2 + 1.
Proof.
  destruct (merge_series_concat epoch_host sample_forecast
              (VArr (map VBool [false; true]))
              ["2024-01-01T10:00:00"; "2024-01-01T10:05:00"]
              ["2024-01-01T10:10:00"]
              [num_of_Z 3; num_of_Z 4] [num_of_Z 5] [false; true]
              eq_refl eq_refl eq_refl (or_intror eq_refl) eq_refl eq_refl
              eq_refl eq_refl)
    as (pts & Hm & _ & Hlen & _).
  exists pts. split; [exact Hm | exact Hlen].
Defined.

(** ** Anomaly classification *)

Lemma index_or_else_total (x : value) (i : nat) :
  exists r, index (or_else x (VArr [])) i = Ok r.
Proof.
  unfold or_else. destruct x as [| |b|n|s|xs|fs]; simpl; try (now eexists).
  - destruct b; simpl; now eexists.
  - destruct (num_truthy n); simpl; now eexists.
  - destruct (negb (s =? "")); simpl; now eexists.
Qed.

Lemma js_lt_Fin (rt : Runtime) (s t : Q) :
  js_lt rt (VNum (Fin s)) (VNum (Fin t)) = true <-> (s < t)%Q.
Proof.
  unfold js_lt; simpl. rewrite negb_true_iff.
  split; intros H.
  - apply Qnot_le_lt. intros L. apply Qle_bool_iff in L. congruence.
  - destruct (Qle_bool t s) eqn:E; [|reflexivity].
    apply Qle_bool_iff in E. exfalso. exact (Qlt_not_le _ _ H E).
Qed.

Section Classify.
Context (rt : Runtime).

(** One dot per score; the surrounding arrays are only read through
    [index], which cannot throw on them. *)
Lemma classify_scores (data thr ts raw : value) (ss : list value) :
  get_prop "threshold" data = Ok thr ->
  get_prop "timestamps" data = Ok ts ->
  get_prop "raw_values" data = Ok raw ->
  get_prop "scores" data = Ok (VArr ss) ->
  exists pts,
    classify rt data = Ok (thr, pts) /\
    List.length pts = List.length ss /\
    (forall i s, nth_error ss i = Some s ->
       exists tsi rawi,
         index (or_else ts (VArr [])) i = Ok tsi /\
         index (or_else raw (VArr [])) i = Ok rawi /\
         nth_error pts i =
           Some {| a_time := if truthy tsi then Date_getTime rt tsi
                             else num_of_nat i;
                   score := s;
                   rawValue := or_else rawi (VNum (Fin 0%Q));
                   status := if js_lt rt s thr then "Anomaly" else "Normal";
                   dateStr := tsi |}).
Proof.
  intros Ht Hts Hraw Hs.
  set (cb := anomaly_point_of rt thr (or_else ts (VArr [])) (or_else raw (VArr []))).
  assert (Hcb : forall s i, exists tsi rawi,
             index (or_else ts (VArr [])) i = Ok tsi /\
             index (or_else raw (VArr [])) i = Ok rawi /\
             cb s i =
               Ok {| a_time := if truthy tsi then Date_getTime rt tsi
                               else num_of_nat i;
                     score := s;
                     rawValue := or_else rawi (VNum (Fin 0%Q));
                     status := if js_lt rt s thr then "Anomaly" else "Normal";
                     dateStr := tsi |}).
  { intros s i.
    destruct (index_or_else_total ts i) as (tsi & E1).
    destruct (index_or_else_total raw i) as (rawi & E2).
    exists tsi, rawi. repeat split; auto.
    unfold cb, anomaly_point_of. now rewrite E1, E2. }
  destruct (map_from_total cb ss 0) as (pts & Hp).
  { intros i x _. destruct (Hcb x (0 + i)) as (tsi & rawi & _ & _ & E).
    rewrite E. now eexists. }
  exists pts. repeat split.
  - unfold classify. rewrite Ht, Hts, Hraw, Hs. simpl.
    fold cb. now rewrite Hp.
  - exact (map_from_length _ _ _ _ Hp).
  - intros i s Hi.
    destruct (map_from_nth_error _ _ _ _ _ _ Hp Hi) as (y & Hy & Hn).
    destruct (Hcb s (0 + i)) as (tsi & rawi & E1 & E2 & E).
    exists tsi, rawi. simpl in *. repeat split; auto.
    rewrite Hn. f_equal. congruence.
Qed.

(** A response that is an object always has the other three fields
    readable. *)
Lemma get_prop_sibling (k k' : string) (data v : value) :
  get_prop k data = Ok v -> exists v', get_prop k' data = Ok v'.
Proof.
  destruct data; simpl; intros H; try discriminate; now eexists.
Qed.

End Classify.

(** C2. For every anomaly response (an object with a [scores] array), each
    produced point is classified ["Anomaly"] exactly when its score is
    [<] the [threshold] field of that same response and ["Normal"]
    otherwise; for numeric score and threshold that is the strict order on
    numbers. The points stored by the pass, and the threshold stored with
    them, do not depend on the state the pass started from, hence not on a
    threshold left by an earlier refresh. *)
Theorem classification_same_threshold (rt : Runtime) (data thr : value)
    (ss : list value) :
  get_prop "threshold" data = Ok thr ->
  get_prop "scores" data = Ok (VArr ss) ->
  exists pts,
    classify rt data = Ok (thr, pts) /\
    List.length pts = List.length ss /\
    (forall i p, nth_error pts i = Some p ->
       nth_error ss i = Some (score p) /\
       (status p = "Anomaly" <-> js_lt rt (score p) thr = true) /\
       (status p = "Normal" <-> js_lt rt (score p) thr = false)) /\
    (forall i p s t, nth_error pts i = Some p ->
       score p = VNum (Fin s) -> thr = VNum (Fin t) ->
       (status p = "Anomaly" <-> (s < t)%Q)) /\
    (forall target f merged imp st,
       merge_series f = Ok merged ->
       let st' := exec (fetchCharts rt target (Resolved f) (Resolved data)
                          (Resolved imp)) st in
       anomalyData st' = pts /\ threshold st' = thr).
Proof.
  intros Ht Hs.
  destruct (get_prop_sibling "scores" "timestamps" _ _ Hs) as (ts & Hts).
  destruct (get_prop_sibling "scores" "raw_values" _ _ Hs) as (raw & Hraw).
  destruct (classify_scores rt data thr ts raw ss Ht Hts Hraw Hs)
    as (pts & Hc & Hlen & Hpt).
  assert (Hstat : forall i p, nth_error pts i = Some p ->
            nth_error ss i = Some (score p) /\
            status p = if js_lt rt (score p) thr then "Anomaly" else "Normal").
  { intros i p Hp.
    destruct (nth_error_in_range ss i) as (s & Hsi).
    { rewrite <- Hlen. apply nth_error_Some. now rewrite Hp. }
    destruct (Hpt i s Hsi) as (tsi & rawi & _ & _ & E).
    rewrite E in Hp. inversion Hp; subst p; simpl. auto. }
  exists pts. split; [exact Hc|]. split; [exact Hlen|]. split; [|split].
  - intros i p Hp. destruct (Hstat i p Hp) as (Hsc & ->).
    split; [exact Hsc|].
    destruct (js_lt rt (score p) thr); split; split;
      intros; try reflexivity; discriminate.
  - intros i p s t Hp Hsp ->. destruct (Hstat i p Hp) as (_ & ->).
    rewrite Hsp. rewrite <- (js_lt_Fin rt s t).
    destruct (js_lt rt (VNum (Fin s)) (VNum (Fin t))); split;
      intros; try reflexivity; discriminate.
  - intros target f merged imp st Hm.
    destruct (fetchCharts_resolved rt target f data imp merged thr pts st Hm Hc)
      as (_ & Ha & Hth).
    split; assumption.
Qed.

Lemma classification_same_threshold_witness :
  exists pts,
    classify epoch_host sample_anomalies = Ok (jnum 5, pts) /\
    List.length pts = 2.
Proof.
  destruct (classification_same_threshold epoch_host sample_anomalies (jnum 5)
              [jnum 3; jnum 7] eq_refl eq_refl)
    as (pts & Hc & Hlen & _).
  exists pts. split; [exact Hc | exact Hlen].
Defined.

(** ** The staleness memo *)

Lemma Qfloor_minutes (n t : Z) :
  Qfloor ((inject_Z n - inject_Z t) / inject_Z 60000) = ((n - t) / 60000)%Z.
Proof.
  rewrite (Zdiv_Qdiv (n - t) 60000).
  apply Qfloor_comp.
  unfold Zminus, Qminus. rewrite inject_Z_plus, inject_Z_opp. reflexivity.
Qed.

Lemma num_lt_30_Z (k : Z) :
  num_lt (Fin (inject_Z 30)) (num_of_Z k) = (30 <? k)%Z.
Proof.
  unfold num_of_Z; simpl.
  destruct (Qle_bool (inject_Z k) (inject_Z 30)) eqn:E; simpl.
  - apply Qle_bool_iff in E. rewrite <- Zle_Qle in E.
    symmetry. apply Z.ltb_ge. exact E.
  - symmetry. apply Z.ltb_lt.
    destruct (Z_lt_le_dec 30 k) as [L|L]; [exact L|].
    rewrite Zle_Qle in L. apply Qle_bool_iff in L. congruence.
Qed.

Lemma more_than_30_whole_minutes (d : Z) :
  (30 <? d / 60000)%Z = (31 * 60000 <=? d)%Z.
Proof.
  destruct (31 * 60000 <=? d)%Z eqn:E.
  - apply Z.leb_le in E. apply Z.ltb_lt.
    Z.to_euclidean_division_equations. lia.
  - apply Z.leb_gt in E. apply Z.ltb_ge.
    Z.to_euclidean_division_equations. lia.
Qed.

Section Stale.
Context (rt : Runtime).

Lemma isStale_parsed (summary ts : value) (t n : Z) :
  truthy summary = true ->
  get_prop "data_timestamp" summary = Ok ts ->
  truthy ts = true ->
  Date_getTime rt ts = num_of_Z t ->
  isStale rt summary (num_of_Z n) = Ok (30 <? (n - t) / 60000)%Z.
Proof.
  intros Hs Hg Ht Hd. unfold isStale.
  rewrite Hs. cbn [negb]. rewrite Hg. cbn [bindR].
  rewrite Ht. cbn [negb bindR]. rewrite Hd.
  change (num_div (num_sub (num_of_Z n) (num_of_Z t)) (Fin (inject_Z 60000)))
    with (Fin ((inject_Z n - inject_Z t) / inject_Z 60000)).
  cbn [Math_floor]. rewrite Qfloor_minutes, num_lt_30_Z. reflexivity.
Qed.

End Stale.

(** C5, as the code has it. [isStale] answers [false] when there is no
    summary or no timestamp in it, and when the timestamp does not parse
    (its time value is [NaN]). Otherwise, for a timestamp [t] and a clock
    [n] in milliseconds, it answers [true] exactly when the number of
    whole minutes elapsed, [floor((n - t) / 60000)], is greater than 30,
    that is when [n - t] is at least 31 minutes: 31 minutes old is stale,
    10 minutes old is not. *)
Theorem isStale_whole_minutes (rt : Runtime) :
  (forall summary now,
      truthy summary = false -> isStale rt summary now = Ok false) /\
  (forall summary ts now,
      truthy summary = true ->
      get_prop "data_timestamp" summary = Ok ts ->
      truthy ts = false ->
      isStale rt summary now = Ok false) /\
  (forall summary ts now,
      truthy summary = true ->
      get_prop "data_timestamp" summary = Ok ts ->
      Date_getTime rt ts = NaN ->
      isStale rt summary now = Ok false) /\
  (forall summary ts t n,
      truthy summary = true ->
      get_prop "data_timestamp" summary = Ok ts ->
      truthy ts = true ->
      Date_getTime rt ts = num_of_Z t ->
      isStale rt summary (num_of_Z n) = Ok (30 <? (n - t) / 60000)%Z /\
      (isStale rt summary (num_of_Z n) = Ok true <-> (31 * 60000 <= n - t)%Z)) /\
  (forall summary ts t,
      truthy summary = true ->
      get_prop "data_timestamp" summary = Ok ts ->
      truthy ts = true ->
      Date_getTime rt ts = num_of_Z t ->
      isStale rt summary (num_of_Z (t + 31 * 60000)) = Ok true /\
      isStale rt summary (num_of_Z (t + 10 * 60000)) = Ok false).
Proof.
  split; [|split; [|split; [|split]]].
  - intros summary now Hs. unfold isStale. now rewrite Hs.
  - intros summary ts now Hs Hg Ht. unfold isStale. rewrite Hs, Hg. simpl.
    now rewrite Ht.
  - intros summary ts now Hs Hg Hd. unfold isStale. rewrite Hs, Hg. simpl.
    destruct (truthy ts); simpl; [|reflexivity].
    rewrite Hd. now destruct now.
  - intros summary ts t n Hs Hg Ht Hd.
    rewrite (isStale_parsed rt summary ts t n Hs Hg Ht Hd).
    split; [reflexivity|].
    rewrite more_than_30_whole_minutes. split.
    + intros H. inversion H as [H']. now apply Z.leb_le.
    + intros H. f_equal. now apply Z.leb_le.
  - intros summary ts t Hs Hg Ht Hd.
    rewrite !(isStale_parsed rt summary ts t _ Hs Hg Ht Hd).
    rewrite !more_than_30_whole_minutes. split; f_equal.
    + apply Z.leb_le. lia.
    + apply Z.leb_gt. lia.
Qed.

Lemma isStale_whole_minutes_witness :
  isStale epoch_host VNull (num_of_Z 0) = Ok false /\
  isStale epoch_host (VObj []) (num_of_Z 0) = Ok false /\
  isStale epoch_host (VObj [("data_timestamp", VStr "yesterday")]) (num_of_Z 0)
    = Ok false /\
  isStale epoch_host epoch_summary (num_of_Z (0 + 31 * 60000)) = Ok true /\
  isStale epoch_host epoch_summary (num_of_Z (0 + 10 * 60000)) = Ok false.
Proof.
  destruct (isStale_whole_minutes epoch_host) as (H1 & H2 & H3 & _ & H5).
  split; [exact (H1 VNull (num_of_Z 0) eq_refl)|].
  split; [exact (H2 (VObj []) VUndefined (num_of_Z 0) eq_refl eq_refl eq_refl)|].
  split; [exact (H3 (VObj [("data_timestamp", VStr "yesterday")])
                    (VStr "yesterday") (num_of_Z 0) eq_refl eq_refl eq_refl)|].
  exact (H5 epoch_summary (VStr "1970-01-01T00:00:00.000Z") 0%Z
            eq_refl eq_refl eq_refl eq_refl).
Defined.

(** C5, as stated, fails half a minute past the limit: a reading that is
    30 minutes and 30 seconds old is more than 30 minutes old, yet
    [isStale] answers [false]. *)
Lemma isStale_thirty_minutes_thirty_seconds :
  get_prop "data_timestamp" epoch_summary = Ok (VStr "1970-01-01T00:00:00.000Z") /\
  Date_getTime epoch_host (VStr "1970-01-01T00:00:00.000Z") = num_of_Z 0 /\
  (1830000 - 0 > 30 * 60000)%Z /\
  isStale epoch_host epoch_summary (num_of_Z 1830000) = Ok false.
Proof. repeat split. Qed.

(** ** Short and missing arrays *)

Lemma index_guarded_array (v : value) (l : list value) (i : nat) :
  (truthy v = false /\ l = [] \/ v = VArr l) ->
  index (or_else v (VArr [])) i = Ok (nth i l VUndefined).
Proof.
  unfold or_else. intros [[-> ->] | ->]; simpl; [now destruct i | reflexivity].
Qed.

(** C7, as stated, fails: a history value that is missing is left
    [undefined] (no 0 is put in its place); a missing anomaly timestamp is
    replaced by the index of the point (here 1), not by 0; and a response
    without its [scores] array makes the classification throw, so no
    anomaly point is produced at all. *)
Lemma short_arrays_are_not_zero_filled :
  merge_series short_history =
    Ok [ {| time := "10:00"; history := VUndefined; history_error := VNull;
            forecast := VNull |} ] /\
  VUndefined <> VNum (Fin 0%Q) /\
  option_map a_time
    (match classify epoch_host bare_scores with
     | Ok (_, pts) => nth_error pts 1
     | Throw _ => None
     end) = Some (num_of_nat 1) /\
  classify epoch_host anomalies_without_scores = Throw TypeError.
Proof. repeat split. discriminate. Qed.

(** C7, as the code has it. When the value arrays ([history_y],
    [forecast_y]) or the flag array are shorter than their timestamp
    arrays, and when [timestamps] or [raw_values] are absent or shorter
    than [scores], neither the merge nor the classification throws, and
    each still yields one point per timestamp, respectively per score.
    The fallback 0 is substituted for a missing raw value only; a missing
    anomaly timestamp falls back to the point's index (and [dateStr] stays
    undefined); a missing history or forecast value is passed on as
    [undefined], and a missing flag counts as no error. *)
Theorem short_arrays_fallbacks (rt : Runtime) :
  (forall (data flags : value) (hx fx : list string) (hy fy fl : list value),
      get_prop "history_x" data = Ok (VArr (map VStr hx)) ->
      get_prop "history_y" data = Ok (VArr hy) ->
      get_prop "history_flags" data = Ok flags ->
      (truthy flags = false /\ fl = [] \/ flags = VArr fl) ->
      get_prop "forecast_x" data = Ok (VArr (map VStr fx)) ->
      get_prop "forecast_y" data = Ok (VArr fy) ->
      exists pts,
        merge_series data = Ok pts /\
        List.length pts = List.length hx + List.length fx /\
        (forall i, i < List.length hx ->
           exists p, nth_error pts i = Some p /\
             history p = nth i hy VUndefined /\
             (List.length hy <= i -> history p = VUndefined) /\
             (List.length fl <= i -> history_error p = VNull)) /\
        (forall j, j < List.length fx ->
           exists p, nth_error pts (List.length hx + j) = Some p /\
             forecast p = nth j fy VUndefined /\
             (List.length fy <= j -> forecast p = VUndefined))) /\
  (forall (data thr ts raw : value) (ss tsl rawl : list value),
      get_prop "threshold" data = Ok thr ->
      get_prop "timestamps" data = Ok ts ->
      (truthy ts = false /\ tsl = [] \/ ts = VArr tsl) ->
      get_prop "raw_values" data = Ok raw ->
      (truthy raw = false /\ rawl = [] \/ raw = VArr rawl) ->
      get_prop "scores" data = Ok (VArr ss) ->
      exists pts,
        classify rt data = Ok (thr, pts) /\
        List.length pts = List.length ss /\
        (forall i, i < List.length ss ->
           exists p, nth_error pts i = Some p /\
             score p = nth i ss VUndefined /\
             rawValue p = or_else (nth i rawl VUndefined) (VNum (Fin 0%Q)) /\
             (List.length rawl <= i -> rawValue p = VNum (Fin 0%Q)) /\
             (List.length tsl <= i ->
                a_time p = num_of_nat i /\ dateStr p = VUndefined))).
Proof.
  split.
  - intros data flags hx fx hy fy fl Hhx Hhy Hf Hfl Hfx Hfy.
    destruct (merge_series_arrays data flags hx fx hy fy fl Hhx Hhy Hf Hfl Hfx Hfy)
      as (pts & Hm & Hlen & Hh & Hfc).
    exists pts. split; [exact Hm|]. split; [exact Hlen|]. split.
    + intros i Hi. destruct (nth_error_in_range hx i Hi) as (t & Ht).
      eexists. split; [exact (Hh i t Ht)|]. simpl.
      split; [reflexivity|]. split.
      * intros L. now apply nth_overflow.
      * intros L. now rewrite (nth_overflow fl VUndefined L).
    + intros j Hj. destruct (nth_error_in_range fx j Hj) as (t & Ht).
      eexists. split; [exact (Hfc j t Ht)|]. simpl.
      split; [reflexivity|]. intros L. now apply nth_overflow.
  - intros data thr ts raw ss tsl rawl Ht Hts Htsl Hraw Hrawl Hs.
    destruct (classify_scores rt data thr ts raw ss Ht Hts Hraw Hs)
      as (pts & Hc & Hlen & Hpt).
    exists pts. split; [exact Hc|]. split; [exact Hlen|].
    intros i Hi. destruct (nth_error_in_range ss i Hi) as (s & Hsi).
    destruct (Hpt i s Hsi) as (tsi & rawi & E1 & E2 & E).
    rewrite (index_guarded_array ts tsl i Htsl) in E1.
    rewrite (index_guarded_array raw rawl i Hrawl) in E2.
    inversion E1; subst tsi. inversion E2; subst rawi.
    eexists. split; [exact E|]. simpl.
    split; [symmetry; now apply nth_error_nth|].
    split; [reflexivity|]. split.
    + intros L. now rewrite (nth_overflow rawl VUndefined L).
    + intros L. now rewrite (nth_overflow tsl VUndefined L).
Qed.

Lemma short_arrays_fallbacks_witness :
  (exists pts, merge_series short_history = Ok pts /\ List.length pts = 1 + 0) /\
  (exists pts, classify epoch_host bare_scores = Ok (jnum 5, pts) /\
               List.length pts = 2).
Proof.
  destruct (short_arrays_fallbacks epoch_host) as (Hm & Hc).
  split.
  - destruct (Hm short_history VUndefined ["2024-01-01T10:00:00"] [] [] [] []
                 eq_refl eq_refl eq_refl (or_introl (conj eq_refl eq_refl))
                 eq_refl eq_refl) as (pts & E & L & _).
    exists pts. split; [exact E | exact L].
  - destruct (Hc bare_scores (jnum 5) VUndefined VUndefined
                 [jnum 3; jnum 7] [] []
                 eq_refl eq_refl (or_introl (conj eq_refl eq_refl))
                 eq_refl (or_introl (conj eq_refl eq_refl)) eq_refl)
      as (pts & E & L & _).
    exists pts. split; [exact E | exact L].
Defined.

(** ** No update before all three requests are in *)

(** C8, as stated, fails when the pass fails after its first setter: with
    a usable forecast response and an anomaly response that has no
    [scores], the [try] block throws, yet the line chart has been
    replaced while the scatter data and the importance bars are the old
    ones. *)
Lemma failed_pass_keeps_forecast_update :
  fst (fetchCharts_try epoch_host "z_rms" (Resolved sample_forecast)
         (Resolved anomalies_without_scores) (Resolved sample_importance) initial)
    = Throw TypeError /\
  forecastData
    (exec (fetchCharts epoch_host "z_rms" (Resolved sample_forecast)
             (Resolved anomalies_without_scores) (Resolved sample_importance))
       initial)
    <> forecastData initial /\
  anomalyData
    (exec (fetchCharts epoch_host "z_rms" (Resolved sample_forecast)
             (Resolved anomalies_without_scores) (Resolved sample_importance))
       initial)
    = anomalyData initial /\
  importanceData
    (exec (fetchCharts epoch_host "z_rms" (Resolved sample_forecast)
             (Resolved anomalies_without_scores) (Resolved sample_importance))
       initial)
    = importanceData initial.
Proof. repeat split. discriminate. Qed.

(** C8, as the code has it. When one of the three requests of a pass is
    rejected, the pass changes nothing: the three snapshots (and the
    threshold) stay as they were. A snapshot is changed only by a pass
    whose three requests have all resolved. *)
Theorem no_update_unless_all_fetched (rt : Runtime) (target : string)
    (pf pa pi : settlement) (st : state) :
  (pf = Rejected \/ pa = Rejected \/ pi = Rejected ->
     exec (fetchCharts rt target pf pa pi) st = st) /\
  (forecastData (exec (fetchCharts rt target pf pa pi) st) <> forecastData st \/
   anomalyData (exec (fetchCharts rt target pf pa pi) st) <> anomalyData st \/
   importanceData (exec (fetchCharts rt target pf pa pi) st) <> importanceData st \/
   threshold (exec (fetchCharts rt target pf pa pi) st) <> threshold st ->
     exists f a i, pf = Resolved f /\ pa = Resolved a /\ pi = Resolved i).
Proof.
  split.
  - intros H. now apply fetchCharts_rejected.
  - intros H.
    destruct pf as [|f]; [|destruct pa as [|a]; [|destruct pi as [|i]]];
      try (now exists f, a, i); exfalso;
      match goal with
      | H : context [exec (fetchCharts rt target ?x ?y ?z) st] |- _ =>
          destruct (fetchCharts_rejected rt target x y z st) as [_ E];
            [auto | rewrite E in H]
      end;
      destruct H as [H | [H | [H | H]]]; now apply H.
Qed.

Lemma no_update_unless_all_fetched_witness :
  exec (fetchCharts epoch_host "z_rms" (Resolved sample_forecast) Rejected
          (Resolved sample_importance)) initial = initial.
Proof.
  destruct (no_update_unless_all_fetched epoch_host "z_rms"
              (Resolved sample_forecast) Rejected (Resolved sample_importance)
              initial) as (H & _).
  exact (H (or_intror (or_introl eq_refl))).
Defined.

(** ** Overlapping passes *)

(** C9, as stated, fails: the pass started second resolves first, the pass
    started first resolves after it, and what is displayed in the end is
    the data of the pass started first. *)
Lemma stale_tick_overwrites_newer :
  started older_tick < started newer_tick /\
  forecastData (arrivals epoch_host [newer_tick; older_tick] initial)
    = forecastData (arrive epoch_host initial older_tick) /\
  forecastData (arrivals epoch_host [newer_tick; older_tick] initial)
    <> forecastData (arrive epoch_host initial newer_tick) /\
  anomalyData (arrivals epoch_host [newer_tick; older_tick] initial)
    = anomalyData (arrive epoch_host initial older_tick) /\
  anomalyData (arrivals epoch_host [newer_tick; older_tick] initial)
    <> anomalyData (arrive epoch_host initial newer_tick).
Proof.
  split; [unfold older_tick, newer_tick; simpl; lia|].
  repeat split; discriminate.
Qed.

(** C9, as the code has it: the pass whose requests resolved last wins.
    Whatever arrived before it and whichever pass was started first, once
    a pass with a usable forecast and anomaly response arrives, the line
    chart, the scatter data and the threshold are those of that pass. *)
Theorem last_resolved_tick_wins (rt : Runtime) (earlier : list tick) (t : tick)
    (f a i : value) (merged : list chart_point) (thr : value)
    (pts : list anomaly_point) (st : state) :
  forecastReq t = Resolved f ->
  anomalyReq t = Resolved a ->
  importanceReq t = Resolved i ->
  merge_series f = Ok merged ->
  classify rt a = Ok (thr, pts) ->
  forecastData (arrivals rt (earlier ++ [t]) st) = merged /\
  anomalyData (arrivals rt (earlier ++ [t]) st) = pts /\
  threshold (arrivals rt (earlier ++ [t]) st) = thr.
Proof.
  intros Hf Ha Hi Hm Hc. unfold arrivals.
  rewrite fold_left_app. simpl. unfold arrive at 1 3 5.
  rewrite Hf, Ha, Hi.
  exact (fetchCharts_resolved rt (target t) f a i merged thr pts _ Hm Hc).
Qed.

Lemma last_resolved_tick_wins_witness :
  forecastData (arrivals epoch_host ([newer_tick] ++ [older_tick]) initial)
    = [ {| time := "10:00"; history := VUndefined; history_error := VNull;
           forecast := VNull |} ].
Proof.
  destruct (last_resolved_tick_wins epoch_host [newer_tick] older_tick
              short_history bare_scores sample_importance
              [ {| time := "10:00"; history := VUndefined;
                   history_error := VNull; forecast := VNull |} ]
              (jnum 5)
              (snd (match classify epoch_host bare_scores with
                    | Ok r => r
                    | Throw _ => (VNull, [])
                    end))
              initial eq_refl eq_refl eq_refl eq_refl eq_refl) as (H & _).
  exact H.
Defined.

(* ------------------------------------------------------------------ *)
(** ** The conversation engine                                          *)
(* ------------------------------------------------------------------ *)

Import Chatbot.

Ltac run_chat :=
  unfold handleApprove, handleApprove_start, handleApprove_resume, sendMessage,
    Legacy.sendMessage, Legacy.sendMessage_resume, sendMessage_resume, exec,
    try_catch_finally, try_catch, bind, lift, set, ret, throw, await;
  simpl.

Lemma truthy_VStr (s : string) : truthy (VStr s) = false <-> s = "".
Proof.
  simpl. rewrite negb_false_iff. apply String.eqb_eq.
Qed.

(** The guard of [sendMessage] looks at the text only. *)
Lemma sendMessage_start_guard (st : state) :
  trim (input st) = "" -> sendMessage_start st = (None, st).
Proof.
  intros H. unfold sendMessage_start.
  now rewrite (proj2 (truthy_VStr _) H).
Qed.

Lemma sendMessage_start_passes (st : state) :
  trim (input st) <> "" ->
  exists pl st',
    sendMessage_start st = (Some pl, st') /\
    message_text pl = trim (input st) /\
    draft st' = draft st /\ sessionId st' = sessionId st.
Proof.
  intros H. unfold sendMessage_start.
  destruct (truthy (VStr (trim (input st)))) eqn:E.
  - simpl. eexists. eexists. repeat split.
  - apply truthy_VStr in E. contradiction.
Qed.

Lemma Legacy_sendMessage_start_passes (st : state) :
  trim (input st) <> "" ->
  exists pl st',
    Legacy.sendMessage_start st = (Some pl, st') /\
    draft st' = draft st /\ sessionId st' = sessionId st.
Proof.
  intros H. unfold Legacy.sendMessage_start.
  destruct (truthy (VStr (trim (input st)))) eqn:E.
  - simpl. eexists. eexists. repeat split.
  - apply truthy_VStr in E. contradiction.
Qed.

(** What a settled chat request does to the draft. *)
Lemma sendMessage_resume_draft (p : settlement) (st : state) :
  draft (exec (sendMessage_resume p) st) =
    match p with
    | Rejected => draft st
    | Resolved data =>
        match get_prop "draft" data with
        | Ok d => if truthy d then d else draft st
        | Throw _ => draft st
        end
    end.
Proof.
  destruct p as [|data]; run_chat; [reflexivity|].
  destruct (get_prop "response" data) as [r|e] eqn:R; simpl.
  - destruct (get_prop "draft" data) as [d|e] eqn:D; simpl; [|reflexivity].
    destruct (truthy d); simpl; reflexivity.
  - destruct data; simpl in *; try discriminate; reflexivity.
Qed.

Lemma Legacy_sendMessage_resume_same :
  Legacy.sendMessage_resume = sendMessage_resume.
Proof. reflexivity. Qed.

(** C3. After two successive successful [sendMessage] completions whose
    responses both carry draft content, the pending draft is exactly the
    draft of the second response: it was set to the first one in between
    and is replaced as a whole, nothing of the first is kept. This holds
    for the two completions taken alone, for two whole calls (the user
    typing a new text in between), and for the earlier version of the
    component. *)
Theorem second_draft_replaces_first (st : state) (data1 data2 d1 d2 : value) :
  get_prop "draft" data1 = Ok d1 -> truthy d1 = true ->
  get_prop "draft" data2 = Ok d2 -> truthy d2 = true ->
  draft (exec (sendMessage_resume (Resolved data1)) st) = d1 /\
  draft (exec (sendMessage_resume (Resolved data2))
           (exec (sendMessage_resume (Resolved data1)) st)) = d2 /\
  draft (exec (Legacy.sendMessage_resume (Resolved data2))
           (exec (Legacy.sendMessage_resume (Resolved data1)) st)) = d2 /\
  (forall text2,
      trim (input st) <> "" -> trim text2 <> "" ->
      draft (sendMessage (Resolved data2)
               (setInput text2 (sendMessage (Resolved data1) st))) = d2 /\
      draft (Legacy.sendMessage (Resolved data2)
               (setInput text2 (Legacy.sendMessage (Resolved data1) st))) = d2).
Proof.
  intros H1 T1 H2 T2.
  assert (R : forall d data s, get_prop "draft" data = Ok d -> truthy d = true ->
                draft (exec (sendMessage_resume (Resolved data)) s) = d).
  { intros d data s Hd Td. rewrite sendMessage_resume_draft, Hd. now rewrite Td. }
  split; [now apply R|]. split; [now apply R|].
  split; [rewrite Legacy_sendMessage_resume_same; now apply R|].
  intros text2 Hin Ht2. split.
  - unfold sendMessage at 1.
    destruct (sendMessage_start_passes
                (setInput text2 (sendMessage (Resolved data1) st)) Ht2)
      as (pl & st' & -> & _).
    now apply R.
  - unfold Legacy.sendMessage at 1.
    destruct (Legacy_sendMessage_start_passes
                (setInput text2 (Legacy.sendMessage (Resolved data1) st)) Ht2)
      as (pl & st' & -> & _).
    rewrite Legacy_sendMessage_resume_same. now apply R.
Qed.

Lemma second_draft_replaces_first_witness :
  draft (exec (sendMessage_resume (Resolved (draft_reply "Updated." "Replace bearing.")))
           (exec (sendMessage_resume (Resolved (draft_reply "Done." "Inspect bearing.")))
              (initial "session-abc")))
    = VStr "Replace bearing.".
Proof.
  destruct (second_draft_replaces_first (initial "session-abc")
              (draft_reply "Done." "Inspect bearing.")
              (draft_reply "Updated." "Replace bearing.")
              (VStr "Inspect bearing.") (VStr "Replace bearing.")
              eq_refl eq_refl eq_refl eq_refl) as (_ & H & _).
  exact H.
Defined.

(** C4, on the code. With an image staged and no text the send button is
    enabled, but [sendMessage] returns at its guard: no message is
    appended, no request is posted, the state (staged image included) is
    what it was. The guard tests the trimmed text alone, so the default
    prompt is never sent: every request that is posted carries the
    trimmed text, which is not empty. *)
Theorem sendMessage_image_only_does_nothing :
  truthy (imageBase64 image_only) = true /\
  trim (input image_only) = "" /\
  sendButton_disabled image_only = false /\
  sendMessage_start image_only = (None, image_only) /\
  (forall p, sendMessage p image_only = image_only) /\
  (forall st pl st',
      sendMessage_start st = (Some pl, st') ->
      message_text pl = trim (input st) /\ trim (input st) <> "").
Proof.
  split; [reflexivity|]. split; [reflexivity|]. split; [reflexivity|].
  split; [reflexivity|]. split; [reflexivity|].
  intros st pl st' H. unfold sendMessage_start in H.
  destruct (truthy (VStr (trim (input st)))) eqn:E; simpl in H; [|discriminate].
  inversion H; subst; simpl. split; [reflexivity|].
  intros Z. apply truthy_VStr in Z. congruence.
Qed.

(** C6. When the approval request fails, the draft, the transcript and the
    session identifier are what they were, an alert has been raised, and
    the loading flag is cleared, so that approving again posts the same
    session identifier. The loading flag is cleared however the request
    settles. *)
Theorem failed_approval_keeps_draft (rt : Runtime) (st : state) :
  draft (handleApprove rt Rejected st) = draft st /\
  messages (handleApprove rt Rejected st) = messages st /\
  sessionId (handleApprove rt Rejected st) = sessionId st /\
  alerts (handleApprove rt Rejected st) =
    (alerts st ++ ["Failed to approve work order. Please check the console."])%list /\
  loading (handleApprove rt Rejected st) = false /\
  fst (handleApprove_start (handleApprove rt Rejected st)) = sessionId st /\
  (forall p, loading (handleApprove rt p st) = false).
Proof.
  repeat split.
  intros [|data]; run_chat; [reflexivity|].
  destruct (get_prop "work_order_id" data); reflexivity.
Qed.

(** A remark on the other way into the [catch] block of [handleApprove]:
    a request that resolves with a [null] body. The draft is cleared
    before the read of [work_order_id] throws; no confirmation is
    appended and the alert is raised. *)
Lemma handleApprove_null_body (rt : Runtime) (st : state) :
  draft (handleApprove rt (Resolved VNull) st) = VStr "" /\
  messages (handleApprove rt (Resolved VNull) st) = messages st /\
  alerts (handleApprove rt (Resolved VNull) st) =
    (alerts st ++ ["Failed to approve work order. Please check the console."])%list /\
  loading (handleApprove rt (Resolved VNull) st) = false.
Proof. repeat split. Qed.

(** A successful approval: the draft is cleared and the confirmation
    names the work order the server assigned. *)
Lemma handleApprove_success (rt : Runtime) (st : state) (data : value) (id : string) :
  get_prop "work_order_id" data = Ok (VStr id) ->
  draft (handleApprove rt (Resolved data) st) = VStr "" /\
  messages (handleApprove rt (Resolved data) st) =
    (messages st ++
       [ {| role := "ai";
            content := VStr ("✅ Success! Work Order " ++ id
                             ++ " has been saved to the database.");
            image := VUndefined |} ])%list /\
  loading (handleApprove rt (Resolved data) st) = false.
Proof.
  intros H. run_chat. rewrite H. simpl. repeat split.
Qed.

(** ** The draft is empty or shown *)

Lemma step_draft_ok (rt : Runtime) (st : state) (e : event) :
  draft_ok st -> draft_ok (step rt st e).
Proof.
  unfold draft_ok. intros H.
  destruct e as [b|s|d f| |fresh| | |p| |p]; simpl; auto.
  - unfold sendMessage_start.
    destruct (negb (truthy (VStr (trim (input st))))); simpl; auto.
  - rewrite sendMessage_resume_draft. destruct p as [|data]; auto.
    destruct (get_prop "draft" data) as [d|]; auto.
    destruct (truthy d) eqn:T; auto.
  - destruct p as [|data]; run_chat; auto.
    destruct (get_prop "work_order_id" data); simpl; auto.
Qed.

Lemma run_draft_ok (rt : Runtime) (es : list event) :
  forall st, draft_ok st -> draft_ok (run rt es st).
Proof.
  induction es as [|e es IH]; intros st H; simpl; auto.
  apply IH. now apply step_draft_ok.
Qed.

(** C10. A chat response replaces the pending draft only when its [draft]
    field is truthy: with the field absent, [null] or the empty string the
    draft is left as it was, and a truthy field becomes the draft. Hence
    no settlement of a chat request turns a pending draft into an absent
    one, and in every state the component can reach the draft is either
    the empty string (absent) or truthy; a draft that is displayed is
    never the empty string. The earlier version of the component settles
    its chat request in the same way. *)
Theorem draft_replaced_only_by_truthy (rt : Runtime) :
  (forall st data d,
      get_prop "draft" data = Ok d -> truthy d = false ->
      draft (exec (sendMessage_resume (Resolved data)) st) = draft st) /\
  (forall st data d,
      get_prop "draft" data = Ok d ->
      d = VUndefined \/ d = VNull \/ d = VStr "" ->
      draft (exec (sendMessage_resume (Resolved data)) st) = draft st) /\
  (forall st data d,
      get_prop "draft" data = Ok d -> truthy d = true ->
      draft (exec (sendMessage_resume (Resolved data)) st) = d) /\
  (forall st p,
      truthy (draft st) = true ->
      truthy (draft (exec (sendMessage_resume p) st)) = true) /\
  (forall sid es,
      draft (run rt es (initial sid)) = VStr "" \/
      truthy (draft (run rt es (initial sid))) = true) /\
  (forall sid es,
      draft_displayed (run rt es (initial sid)) = true ->
      draft (run rt es (initial sid)) <> VStr "") /\
  Legacy.sendMessage_resume = sendMessage_resume.
Proof.
  assert (F : forall st data d,
             get_prop "draft" data = Ok d -> truthy d = false ->
             draft (exec (sendMessage_resume (Resolved data)) st) = draft st).
  { intros st data d Hd Td. rewrite sendMessage_resume_draft, Hd. now rewrite Td. }
  split; [exact F|]. split; [|split; [|split; [|split; [|split]]]].
  - intros st data d Hd [-> | [-> | ->]]; now apply (F st data _ Hd).
  - intros st data d Hd Td. rewrite sendMessage_resume_draft, Hd. now rewrite Td.
  - intros st p T. rewrite sendMessage_resume_draft. destruct p as [|data]; auto.
    destruct (get_prop "draft" data) as [d|]; auto.
    destruct (truthy d) eqn:Td; auto.
  - intros sid es. apply (run_draft_ok rt es). now left.
  - intros sid es D E. unfold draft_displayed in D. rewrite E in D.
    simpl in D. rewrite andb_false_r in D. discriminate.
  - reflexivity.
Qed.

Lemma draft_replaced_only_by_truthy_witness :
  draft (exec (sendMessage_resume
                 (Resolved (VObj [("response", VStr "It is running."); ("draft", VStr "")])))
           (setDraft (VStr "Inspect bearing.") (initial "session-abc")))
    = VStr "Inspect bearing.".
Proof.
  destruct (draft_replaced_only_by_truthy epoch_host) as (H & _).
  exact (H (setDraft (VStr "Inspect bearing.") (initial "session-abc"))
           (VObj [("response", VStr "It is running."); ("draft", VStr "")])
           (VStr "") eq_refl eq_refl).
Defined.

(* ================================================================== *)
(** * Further properties of the conversation engine                     *)
(* ================================================================== *)

(** The message a settled chat request appends. *)
Lemma sendMessage_resume_state (p : settlement) (st : state) :
  exists reply,
    messages (exec (sendMessage_resume p) st) = (messages st ++ [reply])%list /\
    reply =
      match p with
      | Rejected => connection_error
      | Resolved data =>
          match get_prop "response" data with
          | Ok r => {| role := "ai"; content := r; image := VUndefined |}
          | Throw _ => connection_error
          end
      end /\
    loading (exec (sendMessage_resume p) st) = false /\
    input (exec (sendMessage_resume p) st) = input st /\
    sessionId (exec (sendMessage_resume p) st) = sessionId st /\
    imageBase64 (exec (sendMessage_resume p) st) = imageBase64 st /\
    imageFile (exec (sendMessage_resume p) st) = imageFile st /\
    isOpen (exec (sendMessage_resume p) st) = isOpen st /\
    alerts (exec (sendMessage_resume p) st) = alerts st.
Proof.
  destruct p as [|data]; run_chat.
  - eexists. repeat split.
  - destruct (get_prop "response" data) as [r|e] eqn:R; simpl.
    + destruct (get_prop "draft" data) as [d|e] eqn:D; simpl.
      * destruct (truthy d); simpl; eexists; repeat split.
      * destruct data; simpl in *; discriminate.
    + eexists. repeat split.
Qed.

(** X1. The transcript is append-only: as long as the chat is not reset,
    whatever happens (typing, staging or removing an image, opening,
    dismissing a draft, starting or settling a send or an approval) keeps
    the messages already shown, in their order, and adds at most one
    message per event at the end. *)
Theorem transcript_append_only (rt : Runtime) (es : list event) (st : state) :
  (forall fresh, ~ In (ResetChat fresh) es) ->
  exists more,
    messages (run rt es st) = (messages st ++ more)%list /\
    List.length more <= List.length es.
Proof.
  revert st. induction es as [|e es IH]; intros st H.
  - exists []. simpl. split; [now rewrite app_nil_r | auto].
  - assert (S1 : exists m1, messages (step rt st e) = (messages st ++ m1)%list
                            /\ List.length m1 <= 1).
    { destruct e as [b|s|d f| |fresh| | |p| |p]; simpl;
        try (exists []; split; [now rewrite app_nil_r | auto]).
      - exfalso. apply (H fresh). now left.
      - unfold sendMessage_start.
        destruct (negb (truthy (VStr (trim (input st))))); simpl.
        + exists []. split; [now rewrite app_nil_r | auto].
        + eexists. split; [reflexivity | auto].
      - destruct (sendMessage_resume_state p st) as (reply & E & _).
        exists [reply]. split; [exact E | auto].
      - destruct p as [|data]; run_chat.
        + exists []. split; [now rewrite app_nil_r | auto].
        + destruct (get_prop "work_order_id" data); simpl.
          * eexists. split; [reflexivity | auto].
          * exists []. split; [now rewrite app_nil_r | auto]. }
    destruct S1 as (m1 & E1 & L1).
    destruct (IH (step rt st e)) as (m2 & E2 & L2).
    { intros fresh F. apply (H fresh). now right. }
    exists (m1 ++ m2)%list. split.
    + change (run rt (e :: es) st) with (run rt es (step rt st e)).
      rewrite E2, E1. now rewrite app_assoc.
    + rewrite length_app. simpl. lia.
Qed.

Lemma transcript_append_only_witness :
  exists more,
    messages (run epoch_host
                [Type_ "hello"; SendStart; SendResume (Resolved (draft_reply "Hi." "Inspect."))]
                (initial "session-abc"))
      = (messages (initial "session-abc") ++ more)%list /\
    List.length more <= 3.
Proof.
  apply (transcript_append_only epoch_host
           [Type_ "hello"; SendStart; SendResume (Resolved (draft_reply "Hi." "Inspect."))]
           (initial "session-abc")).
  intros fresh [F | [F | [F | []]]]; discriminate.
Defined.

(** X2. A send that passes the guard consumes the text and the staged
    image: the request carries the trimmed text, the session identifier
    and the image that was staged; once it has settled the transcript has
    grown by exactly two messages, the user's (untrimmed text, with the
    image) and then the reply or the connection error, the text box and
    the staged image are empty and the loading flag is cleared. *)
Theorem sendMessage_appends_two (p : settlement) (st : state) :
  trim (input st) <> "" ->
  (exists st1,
     sendMessage_start st =
       (Some {| message_text := trim (input st);
                session_id := sessionId st;
                image_base64 := imageBase64 st |}, st1) /\
     loading st1 = true /\ sendButton_disabled st1 = true) /\
  messages (sendMessage p st) =
    (messages st ++
       [ {| role := "user"; content := VStr (input st); image := imageBase64 st |};
         match p with
         | Rejected => connection_error
         | Resolved data =>
             match get_prop "response" data with
             | Ok r => {| role := "ai"; content := r; image := VUndefined |}
             | Throw _ => connection_error
             end
         end ])%list /\
  input (sendMessage p st) = "" /\
  imageBase64 (sendMessage p st) = VNull /\
  imageFile (sendMessage p st) = VNull /\
  loading (sendMessage p st) = false /\
  sessionId (sendMessage p st) = sessionId st.
Proof.
  intros H.
  assert (T : truthy (VStr (trim (input st))) = true).
  { destruct (truthy (VStr (trim (input st)))) eqn:E; [reflexivity|].
    apply truthy_VStr in E. contradiction. }
  split.
  - unfold sendMessage_start. rewrite T. simpl.
    eexists. split; [reflexivity|]. split; reflexivity.
  - unfold sendMessage, sendMessage_start. rewrite T. simpl.
    match goal with
    | |- context [exec (sendMessage_resume p) ?s] =>
        destruct (sendMessage_resume_state p s)
          as (reply & E & -> & L & I & S & B & F & _)
    end.
    rewrite E, L, I, S, B, F. simpl. unfold append.
    rewrite <- app_assoc. simpl. repeat split.
Qed.

Lemma sendMessage_appends_two_witness :
  messages (sendMessage (Resolved (draft_reply "Hi." "Inspect."))
              (setInput " hello " image_only))
    = [ {| role := "user"; content := VStr " hello ";
           image := VStr "data:image/jpeg;base64,AAAA" |};
        {| role := "ai"; content := VStr "Hi."; image := VUndefined |} ].
Proof.
  destruct (sendMessage_appends_two (Resolved (draft_reply "Hi." "Inspect."))
              (setInput " hello " image_only)) as (_ & H & _).
  - discriminate.
  - exact H.
Defined.

(** A send that passes the guard: what is in flight, and how it ends. *)
Lemma sendMessage_passes (p : settlement) (st : state) :
  trim (input st) <> "" ->
  sendMessage p st =
    exec (sendMessage_resume p)
      (setLoading true
         (removeImage
            (setInput ""
               (setMessages
                  (append {| role := "user"; content := VStr (input st);
                             image := imageBase64 st |}) st)))).
Proof.
  intros H. unfold sendMessage, sendMessage_start.
  destruct (truthy (VStr (trim (input st)))) eqn:E; [reflexivity|].
  apply truthy_VStr in E. contradiction.
Qed.

(** X3. A reset does not cancel the request in flight, and it leaves the
    loading flag as it is: when the reply of the old conversation arrives
    after the reset, it becomes the first message of the new transcript,
    and its draft becomes the pending draft under the new session
    identifier. *)
Theorem late_reply_lands_after_reset (st : state) (fresh : string)
    (data r d : value) :
  get_prop "response" data = Ok r ->
  get_prop "draft" data = Ok d ->
  truthy d = true ->
  loading (resetChat fresh st) = loading st /\
  messages (resetChat fresh st) = [] /\
  draft (resetChat fresh st) = VStr "" /\
  messages (exec (sendMessage_resume (Resolved data)) (resetChat fresh st))
    = [ {| role := "ai"; content := r; image := VUndefined |} ] /\
  draft (exec (sendMessage_resume (Resolved data)) (resetChat fresh st)) = d /\
  sessionId (exec (sendMessage_resume (Resolved data)) (resetChat fresh st)) = fresh.
Proof.
  intros Hr Hd Td.
  split; [reflexivity|]. split; [reflexivity|]. split; [reflexivity|].
  destruct (sendMessage_resume_state (Resolved data) (resetChat fresh st))
    as (reply & E & -> & _ & _ & S & _).
  rewrite E, Hr, S, sendMessage_resume_draft, Hd, Td.
  repeat split.
Qed.

Lemma late_reply_lands_after_reset_witness :
  draft (exec (sendMessage_resume (Resolved (draft_reply "Done." "Inspect bearing.")))
           (resetChat "session-new" (initial "session-abc")))
    = VStr "Inspect bearing.".
Proof.
  destruct (late_reply_lands_after_reset (initial "session-abc") "session-new"
              (draft_reply "Done." "Inspect bearing.")
              (VStr "Done.") (VStr "Inspect bearing.")
              eq_refl eq_refl eq_refl) as (_ & _ & _ & _ & H & _).
  exact H.
Defined.

(** X4. Drafting and approving, end to end: a send whose reply carries a
    draft, followed by an approval that the server answers with a
    work-order identifier, leaves a transcript that has grown by the
    user's message, the reply and a confirmation naming that identifier;
    the draft is pending in between and cleared (no longer displayed) at
    the end, and the loading flag is cleared. *)
Theorem draft_then_approve (rt : Runtime) (st : state) (data r d adata : value)
    (id : string) :
  trim (input st) <> "" ->
  get_prop "response" data = Ok r ->
  get_prop "draft" data = Ok d ->
  truthy d = true ->
  get_prop "work_order_id" adata = Ok (VStr id) ->
  draft (sendMessage (Resolved data) st) = d /\
  messages (handleApprove rt (Resolved adata) (sendMessage (Resolved data) st)) =
    (messages st ++
       [ {| role := "user"; content := VStr (input st); image := imageBase64 st |};
         {| role := "ai"; content := r; image := VUndefined |};
         {| role := "ai";
            content := VStr ("✅ Success! Work Order " ++ id
                             ++ " has been saved to the database.");
            image := VUndefined |} ])%list /\
  draft (handleApprove rt (Resolved adata) (sendMessage (Resolved data) st)) = VStr "" /\
  draft_displayed (handleApprove rt (Resolved adata) (sendMessage (Resolved data) st))
    = false /\
  loading (handleApprove rt (Resolved adata) (sendMessage (Resolved data) st)) = false.
Proof.
  intros Hin Hr Hd Td Hid.
  rewrite (sendMessage_passes _ _ Hin).
  match goal with
  | |- context [exec (sendMessage_resume (Resolved data)) ?s] =>
      destruct (sendMessage_resume_state (Resolved data) s) as (reply & E & -> & _);
      pose proof (sendMessage_resume_draft (Resolved data) s) as D
  end.
  rewrite Hr in E. cbv beta iota in D. rewrite Hd, Td in D.
  destruct (handleApprove_success rt
              (exec (sendMessage_resume (Resolved data))
                 (setLoading true
                    (removeImage
                       (setInput ""
                          (setMessages
                             (append {| role := "user"; content := VStr (input st);
                                        image := imageBase64 st |}) st)))))
              adata id Hid) as (A1 & A2 & A3).
  split; [exact D|]. split; [|split; [exact A1|split; [|exact A3]]].
  - rewrite A2, E. simpl. unfold append. rewrite <- !app_assoc. reflexivity.
  - unfold draft_displayed. rewrite A1. simpl. apply andb_false_r.
Qed.

Lemma draft_then_approve_witness :
  draft (handleApprove epoch_host (Resolved (VObj [("work_order_id", VStr "WO-123")]))
           (sendMessage (Resolved (draft_reply "Drafted." "Inspect bearing."))
              (setInput "Draft a work order for high vibration." (initial "session-abc"))))
    = VStr "".
Proof.
  destruct (draft_then_approve epoch_host
              (setInput "Draft a work order for high vibration." (initial "session-abc"))
              (draft_reply "Drafted." "Inspect bearing.")
              (VStr "Drafted.") (VStr "Inspect bearing.")
              (VObj [("work_order_id", VStr "WO-123")]) "WO-123")
    as (_ & _ & H & _).
  - discriminate.
  - reflexivity.
  - reflexivity.
  - reflexivity.
  - reflexivity.
  - exact H.
Defined.

(** X5. A chat request that fails, because it is rejected or because the
    body of its response cannot be read ([null] or missing), adds the
    connection-error message to the transcript and nothing else: the
    pending draft, the text box, the staged image and the session
    identifier are untouched, no alert is raised, and the loading flag is
    cleared. *)
Theorem chat_failure_keeps_draft (p : settlement) (st : state) :
  (p = Rejected \/
   exists data e, p = Resolved data /\ get_prop "response" data = Throw e) ->
  messages (exec (sendMessage_resume p) st)
    = (messages st ++ [connection_error])%list /\
  draft (exec (sendMessage_resume p) st) = draft st /\
  input (exec (sendMessage_resume p) st) = input st /\
  imageBase64 (exec (sendMessage_resume p) st) = imageBase64 st /\
  sessionId (exec (sendMessage_resume p) st) = sessionId st /\
  alerts (exec (sendMessage_resume p) st) = alerts st /\
  loading (exec (sendMessage_resume p) st) = false.
Proof.
  intros H.
  destruct (sendMessage_resume_state p st)
    as (reply & E & R & L & I & S & B & _ & _ & A).
  rewrite E, L, I, S, B, A, sendMessage_resume_draft.
  destruct H as [-> | (data & e & -> & Hr)].
  - subst reply. repeat split.
  - rewrite Hr in R. subst reply.
    destruct data; simpl in Hr; try discriminate; repeat split.
Qed.

Lemma chat_failure_keeps_draft_witness :
  draft (exec (sendMessage_resume (Resolved VNull))
           (setDraft (VStr "Inspect bearing.") (initial "session-abc")))
    = VStr "Inspect bearing.".
Proof.
  destruct (chat_failure_keeps_draft (Resolved VNull)
              (setDraft (VStr "Inspect bearing.") (initial "session-abc")))
    as (_ & H & _).
  - right. exists VNull, TypeError. split; reflexivity.
  - exact H.
Defined.

(* ================================================================== *)
(** * Further properties of the dashboard                               *)
(* ================================================================== *)

Lemma map_from_Forall {A : Type} (f : value -> nat -> result A) (P : A -> Prop)
    (xs : list value) :
  (forall x i y, f x i = Ok y -> P y) ->
  forall k ys, map_from f k xs = Ok ys -> Forall P ys.
Proof.
  intros HP. induction xs as [|x xs IH]; intros k ys H; simpl in H.
  - inversion H. constructor.
  - destruct (f x k) as [y|e] eqn:E; simpl in H; [|discriminate].
    destruct (map_from f (S k) xs) as [ys'|e] eqn:E'; simpl in H; [|discriminate].
    inversion H; subst. constructor; eauto.
Qed.

(** Every dot is classified against the threshold it is stored with. *)
Lemma classify_status (rt : Runtime) (a thr : value) (pts : list anomaly_point) :
  classify rt a = Ok (thr, pts) ->
  Forall (fun p => status p = if js_lt rt (score p) thr then "Anomaly" else "Normal")
         pts.
Proof.
  unfold classify. intros H.
  destruct (get_prop "threshold" a) as [t|] ; simpl in H; [|discriminate].
  destruct (get_prop "timestamps" a) as [ts|]; simpl in H; [|discriminate].
  destruct (get_prop "raw_values" a) as [raw|]; simpl in H; [|discriminate].
  destruct (get_prop "scores" a) as [ss|]; simpl in H; [|discriminate].
  destruct (array_map ss _) as [ys|] eqn:E; simpl in H; [|discriminate].
  inversion H; subst. destruct ss; simpl in E; try discriminate.
  refine (map_from_Forall _ _ _ _ _ _ E).
  intros x i y Hy. unfold anomaly_point_of in Hy.
  destruct (index _ i) as [tsi|]; simpl in Hy; [|discriminate].
  destruct (index _ i) as [rawi|]; simpl in Hy; [|discriminate].
  inversion Hy; subst. reflexivity.
Qed.

(** The four ways a pass of [fetchCharts] can leave the state. *)
Lemma fetchCharts_cases (rt : Runtime) (target : string) (pf pa pi : settlement)
    (st : Dashboard.state) :
  exec (fetchCharts rt target pf pa pi) st = st \/
  (exists m, exec (fetchCharts rt target pf pa pi) st = setForecastData m st) \/
  (exists m a thr pts,
      pa = Resolved a /\ classify rt a = Ok (thr, pts) /\
      (exec (fetchCharts rt target pf pa pi) st
         = setThreshold thr (setAnomalyData pts (setForecastData m st)) \/
       exists top,
         exec (fetchCharts rt target pf pa pi) st
           = setImportanceData top
               (setThreshold thr (setAnomalyData pts (setForecastData m st))))).
Proof.
  destruct pf as [|f], pa as [|a], pi as [|imp];
    try (left; run_fetch; reflexivity).
  destruct (merge_series f) as [m|e] eqn:Hm.
  - destruct (classify rt a) as [[thr pts]|e] eqn:Hc.
    + right. right. exists m, a, thr, pts. split; [reflexivity|].
      split; [exact Hc|].
      run_fetch. rewrite Hm, Hc. simpl.
      destruct (truthy imp) eqn:E; simpl; rewrite ?E; simpl; auto.
      destruct (get_prop target imp) as [g|] eqn:G; simpl; auto.
      destruct (truthy g); simpl; rewrite ?G; simpl; auto.
      destruct (top_features g); simpl; eauto.
    + right. left. exists m.
      now destruct (fetchCharts_classify_throws rt target f a imp m e st Hm Hc).
  - left. exact (fetchCharts_merge_throws rt target f a imp e st Hm).
Qed.

(** X6. The two polling loops keep to their own cells. A pass of
    [fetchCharts], however it ends, never changes the summary or the
    selected metric. A summary request never changes the line chart, the
    scatter data, the threshold, the importance bars or the selected
    metric: when rejected it changes nothing at all, and when resolved it
    replaces the summary by the body it received, whatever that body
    is. *)
Theorem polling_loops_are_isolated (rt : Runtime) (st : Dashboard.state) :
  (forall target pf pa pi,
      summary (exec (fetchCharts rt target pf pa pi) st) = summary st /\
      selectedTarget (exec (fetchCharts rt target pf pa pi) st) = selectedTarget st) /\
  exec (fetchSummary Rejected) st = st /\
  (forall data,
      exec (fetchSummary (Resolved data)) st = setSummary data st /\
      forecastData (exec (fetchSummary (Resolved data)) st) = forecastData st /\
      anomalyData (exec (fetchSummary (Resolved data)) st) = anomalyData st /\
      threshold (exec (fetchSummary (Resolved data)) st) = threshold st /\
      importanceData (exec (fetchSummary (Resolved data)) st) = importanceData st /\
      selectedTarget (exec (fetchSummary (Resolved data)) st) = selectedTarget st).
Proof.
  split; [|split; [reflexivity | intros data; repeat split]].
  intros target pf pa pi.
  destruct (fetchCharts_cases rt target pf pa pi st)
    as [-> | [(m & ->) | (m & a & thr & pts & _ & _ & [-> | (top & ->)])]];
    split; reflexivity.
Qed.

(** X7. In every state the dashboard can reach from its mount state, the
    colour of each scatter dot agrees with the classification stored in
    it: the dot is red, in both scatter charts, exactly when its status is
    ["Anomaly"]. (The colour is recomputed from the stored threshold, the
    status was computed from the threshold of the response; the two are
    always stored by the same pass.) *)
Theorem dot_colour_matches_status (rt : Runtime) (es : list (DashboardView.event)) :
  Forall (fun p =>
            (status p = "Anomaly" <->
             DashboardView.raw_cell_fill rt (DashboardView.run rt es Dashboard.initial) p
               = "#ef4444") /\
            (status p = "Anomaly" <->
             DashboardView.idk_cell_fill rt (DashboardView.run rt es Dashboard.initial) p
               = "#ef4444"))
         (anomalyData (DashboardView.run rt es Dashboard.initial)).
Proof.
  set (inv := fun st : Dashboard.state =>
         Forall (fun p => status p =
                   if js_lt rt (score p) (threshold st) then "Anomaly" else "Normal")
                (anomalyData st)).
  assert (Hstep : forall st e, inv st -> inv (DashboardView.step rt st e)).
  { intros st e I. destruct e as [p|t|key]; simpl.
    - destruct p as [|data]; exact I.
    - unfold arrive.
      destruct (fetchCharts_cases rt (target t) (forecastReq t) (anomalyReq t)
                  (importanceReq t) st)
        as [-> | [(m & ->) | (m & a & thr & pts & _ & Hc & [-> | (top & ->)])]];
        try exact I; exact (classify_status rt a thr pts Hc).
    - exact I. }
  assert (Hrun : forall es' st, inv st -> inv (DashboardView.run rt es' st)).
  { induction es' as [|e es' IH]; intros st I; [exact I|].
    simpl. apply IH. now apply Hstep. }
  assert (I : inv (DashboardView.run rt es Dashboard.initial)).
  { apply Hrun. constructor. }
  unfold inv in I. revert I. apply Forall_impl. intros p Hp.
  unfold DashboardView.raw_cell_fill, DashboardView.idk_cell_fill. rewrite Hp.
  destruct (js_lt rt (score p) _); repeat split; intros; try reflexivity;
    discriminate.
Qed.

(** What a pass with a usable forecast and anomaly response does with the
    importance response. *)
Lemma fetchCharts_importance (rt : Runtime) (target : string) (f a imp : value)
    (merged : list chart_point) (thr : value) (pts : list anomaly_point)
    (st : Dashboard.state) :
  merge_series f = Ok merged ->
  classify rt a = Ok (thr, pts) ->
  exec (fetchCharts rt target (Resolved f) (Resolved a) (Resolved imp)) st =
    match (if truthy imp then get_prop target imp else Ok imp) with
    | Ok g =>
        if truthy g
        then match top_features g with
             | Ok top =>
                 setImportanceData top
                   (setThreshold thr (setAnomalyData pts (setForecastData merged st)))
             | Throw _ =>
                 setThreshold thr (setAnomalyData pts (setForecastData merged st))
             end
        else setThreshold thr (setAnomalyData pts (setForecastData merged st))
    | Throw _ => setThreshold thr (setAnomalyData pts (setForecastData merged st))
    end.
Proof.
  intros Hm Hc. run_fetch. rewrite Hm, Hc. simpl.
  destruct (truthy imp) eqn:E; simpl; rewrite ?E; simpl; auto.
  destruct (get_prop target imp) as [g|] eqn:G; simpl; auto.
  destruct (truthy g); simpl; rewrite ?G; simpl; auto.
  destruct (top_features g); simpl; auto.
Qed.





(** X9. The importance bars are replaced only when the response holds a
    usable list for the selected metric. When the response is empty or
    falsy, has no (or a falsy) entry under the metric, or holds an entry
    that cannot be turned into bars, the bars stay as they were (possibly
    those of another metric) while the line chart, the scatter data and
    the threshold are those of this pass. *)
Theorem importance_kept_without_entry (rt : Runtime) (target : string)
    (f a imp : value) (merged : list chart_point) (thr : value)
    (pts : list anomaly_point) (st : Dashboard.state) :
  merge_series f = Ok merged ->
  classify rt a = Ok (thr, pts) ->
  (truthy imp = false \/
   (exists g, get_prop target imp = Ok g /\ truthy g = false) \/
   (exists g e, get_prop target imp = Ok g /\ top_features g = Throw e)) ->
  importanceData
    (exec (fetchCharts rt target (Resolved f) (Resolved a) (Resolved imp)) st)
    = importanceData st /\
  forecastData
    (exec (fetchCharts rt target (Resolved f) (Resolved a) (Resolved imp)) st)
    = merged /\
  anomalyData
    (exec (fetchCharts rt target (Resolved f) (Resolved a) (Resolved imp)) st)
    = pts /\
  threshold
    (exec (fetchCharts rt target (Resolved f) (Resolved a) (Resolved imp)) st)
    = thr.
Proof.
  intros Hm Hc H.
  rewrite (fetchCharts_importance rt target f a imp merged thr pts st Hm Hc).
  destruct H as [E | [(g & G & T) | (g & e & G & T)]].
  - rewrite E, E. repeat split.
  - destruct (truthy imp) eqn:E.
    + rewrite G, T. repeat split.
    + rewrite E. repeat split.
  - destruct (truthy imp) eqn:E.
    + rewrite G, T. destruct (truthy g); repeat split.
    + rewrite E. repeat split.
Qed.

Lemma importance_kept_without_entry_witness :
  importanceData
    (exec (fetchCharts epoch_host "x_rms" (Resolved sample_forecast)
             (Resolved sample_anomalies) (Resolved sample_importance))
       (setImportanceData [ {| feature := "MOTOR TEMP"; importance := jnum 7 |} ]
          Dashboard.initial))
    = [ {| feature := "MOTOR TEMP"; importance := jnum 7 |} ].
Proof.
  destruct (importance_kept_without_entry epoch_host "x_rms" sample_forecast
              sample_anomalies sample_importance
              (match merge_series sample_forecast with Ok m => m | Throw _ => [] end)
              (jnum 5)
              (snd (match classify epoch_host sample_anomalies with
                    | Ok r => r
                    | Throw _ => (VNull, [])
                    end))
              (setImportanceData [ {| feature := "MOTOR TEMP"; importance := jnum 7 |} ]
                 Dashboard.initial)
              eq_refl eq_refl) as (H & _).
  - right. left. exists VUndefined. split; reflexivity.
  - exact H.
Defined.

(** A timestamp that is not a string makes the callbacks of the merge
    throw. *)
Lemma history_point_needs_string (data x : value) (i : nat) :
  (forall s, x <> VStr s) -> exists e, history_point data x i = Throw e.
Proof.
  intros H. unfold history_point.
  destruct (get_prop "history_y" data) as [hy|]; simpl; [|now eexists].
  destruct (index hy i); simpl; [|now eexists].
  destruct (get_prop "history_flags" data) as [fl|]; simpl; [|now eexists].
  destruct (if truthy fl then _ else _); simpl; [|now eexists].
  destruct x; simpl; try (now eexists). exfalso. now apply (H s).
Qed.

Lemma forecast_point_needs_string (data x : value) (i : nat) :
  (forall s, x <> VStr s) -> exists e, forecast_point data x i = Throw e.
Proof.
  intros H. unfold forecast_point.
  destruct x; simpl; try (now eexists). exfalso. now apply (H s).
Qed.

(** X10. A forecast response that cannot be merged stops the pass before
    its first setter: when [history_x] or [forecast_x] is not an array
    (absent, say), or when one of the history timestamps is not a string,
    the whole state is left as it was, even though the anomaly and the
    importance responses of the same pass are usable. *)
Theorem unmergeable_forecast_changes_nothing (rt : Runtime) (target : string)
    (f a imp : value) (st : Dashboard.state) :
  ((exists v, get_prop "history_x" f = Ok v /\ forall xs, v <> VArr xs) \/
   (exists xs i x, get_prop "history_x" f = Ok (VArr xs) /\
                   nth_error xs i = Some x /\ forall s, x <> VStr s) \/
   (exists v, get_prop "forecast_x" f = Ok v /\ forall xs, v <> VArr xs)) ->
  (exists e, merge_series f = Throw e) /\
  exec (fetchCharts rt target (Resolved f) (Resolved a) (Resolved imp)) st = st.
Proof.
  intros H.
  assert (T : exists e, merge_series f = Throw e).
  { unfold merge_series.
    destruct H as [(v & Hv & N) | [(xs & i & x & Hx & Hi & N) | (v & Hv & N)]].
    - rewrite Hv. simpl.
      destruct v; simpl; try (now eexists). exfalso. now apply (N xs).
    - rewrite Hx. simpl.
      destruct (history_point_needs_string f x (0 + i) N) as (e & He).
      destruct (map_from_throws (history_point f) xs 0 i x e Hi He) as (e' & ->).
      simpl. now eexists.
    - destruct (get_prop "history_x" f) as [hx|]; simpl; [|now eexists].
      destruct (array_map hx (history_point f)); simpl; [|now eexists].
      rewrite Hv. simpl.
      destruct v; simpl; try (now eexists). exfalso. now apply (N xs). }
  split; [exact T|]. destruct T as (e & He).
  exact (fetchCharts_merge_throws rt target f a imp e st He).
Qed.

Lemma unmergeable_forecast_changes_nothing_witness :
  exec (fetchCharts epoch_host "z_rms" (Resolved (VObj [("forecast_x", VArr [])]))
          (Resolved sample_anomalies) (Resolved sample_importance))
    Dashboard.initial
  = Dashboard.initial.
Proof.
  destruct (unmergeable_forecast_changes_nothing epoch_host "z_rms"
              (VObj [("forecast_x", VArr [])]) sample_anomalies sample_importance
              Dashboard.initial) as (_ & H).
  - left. exists VUndefined. split; [reflexivity | discriminate].
  - exact H.
Defined.

(** X11. Switching the metric does not cancel the pass in flight for the
    previous one: when that pass arrives after the click, the selected
    metric is the new one while the line chart, the scatter data and the
    threshold are those of the response for the metric the pass was
    started with. *)
Theorem late_pass_of_previous_metric (rt : Runtime) (key : string) (t : tick)
    (f a i : value) (merged : list chart_point) (thr : value)
    (pts : list anomaly_point) (st : Dashboard.state) :
  forecastReq t = Resolved f ->
  anomalyReq t = Resolved a ->
  importanceReq t = Resolved i ->
  merge_series f = Ok merged ->
  classify rt a = Ok (thr, pts) ->
  selectedTarget
    (DashboardView.run rt [DashboardView.TileClicked key; DashboardView.ChartsSettled t] st)
    = key /\
  forecastData
    (DashboardView.run rt [DashboardView.TileClicked key; DashboardView.ChartsSettled t] st)
    = merged /\
  anomalyData
    (DashboardView.run rt [DashboardView.TileClicked key; DashboardView.ChartsSettled t] st)
    = pts /\
  threshold
    (DashboardView.run rt [DashboardView.TileClicked key; DashboardView.ChartsSettled t] st)
    = thr.
Proof.
  intros Hf Ha Hi Hm Hc. simpl. unfold arrive. rewrite Hf, Ha, Hi.
  destruct (fetchCharts_resolved rt (target t) f a i merged thr pts
              (setSelectedTarget key st) Hm Hc) as (F & A & T).
  split; [|split; [exact F | split; [exact A | exact T]]].
  destruct (fetchCharts_cases rt (target t) (Resolved f) (Resolved a) (Resolved i)
              (setSelectedTarget key st))
    as [-> | [(m & ->) | (m & a' & thr' & pts' & _ & _ & [-> | (top & ->)])]];
    reflexivity.
Qed.

Lemma late_pass_of_previous_metric_witness :
  selectedTarget
    (DashboardView.run epoch_host
       [DashboardView.TileClicked "temperature"; DashboardView.ChartsSettled newer_tick]
       Dashboard.initial)
    = "temperature".
Proof.
  destruct (late_pass_of_previous_metric epoch_host "temperature" newer_tick
              sample_forecast sample_anomalies sample_importance
              (match merge_series sample_forecast with Ok m => m | Throw _ => [] end)
              (jnum 5)
              (snd (match classify epoch_host sample_anomalies with
                    | Ok r => r
                    | Throw _ => (VNull, [])
                    end))
              Dashboard.initial eq_refl eq_refl eq_refl eq_refl eq_refl) as (H & _).
  exact H.
Defined.

(* ================================================================== *)
(** * The work-order history and what the render reads                  *)
(* ================================================================== *)


(** The detail pane never throws: without a selection it shows nothing;
    with one it shows the work order's [content] when that is truthy and
    its [preview] otherwise. *)
Lemma work_order_details (st : WorkOrders.state) :
  (truthy (WorkOrders.selectedWorkOrder st) = false ->
     WorkOrders.details st = Ok None) /\
  (truthy (WorkOrders.selectedWorkOrder st) = true ->
     exists content preview,
       get_prop "content" (WorkOrders.selectedWorkOrder st) = Ok content /\
       get_prop "preview" (WorkOrders.selectedWorkOrder st) = Ok preview /\
       WorkOrders.details st =
         Ok (Some (if truthy content then content else preview))).
Proof.
  unfold WorkOrders.details. split; intros T; rewrite T; [reflexivity|].
  destruct (WorkOrders.selectedWorkOrder st) as [| |b|n|s|xs|fs]; simpl in *;
    try discriminate;
    try solve [exists VUndefined, VUndefined; repeat split].
  exists (assoc "content" fs), (assoc "preview" fs). repeat split.
  now destruct (truthy (assoc "content" fs)).
Qed.

Lemma work_order_details_witness :
  WorkOrders.details
    (WorkOrders.setSelectedWorkOrder
       (VObj [("id", VStr "WO-123"); ("preview", VStr "Inspect bearing")])
       WorkOrders.initial)
    = Ok (Some (VStr "Inspect bearing")).
Proof.
  destruct (work_order_details
              (WorkOrders.setSelectedWorkOrder
                 (VObj [("id", VStr "WO-123"); ("preview", VStr "Inspect bearing")])
                 WorkOrders.initial)) as (_ & H).
  destruct (H eq_refl) as (content & preview & Hc & Hp & E).
  rewrite E. inversion Hc. inversion Hp. reflexivity.
Defined.

(** Which entries [Object.entries] lists. *)
Lemma entries_unseen_In (fs : list (string * value)) :
  forall seen k v,
    In (k, v) (DashboardView.entries_unseen seen fs) <->
    existsb (String.eqb k) seen = false /\ In k (map fst fs) /\ assoc k fs = v.
Proof.
  induction fs as [|[k0 v0] rest IH]; intros seen k v; simpl.
  - split; [contradiction | intros (_ & [] & _)].
  - destruct (existsb (String.eqb k0) seen) eqn:S0.
    + rewrite IH. split.
      * intros (S & I & A). split; [exact S|]. split; [now right|].
        destruct (String.eqb_spec k k0) as [->|N]; [congruence | exact A].
      * intros (S & I & A).
        destruct (String.eqb_spec k k0) as [->|N]; [congruence|].
        split; [exact S|]. split; [|exact A].
        destruct I as [E|I]; [congruence | exact I].
    + simpl. rewrite IH. simpl. split.
      * intros [E | (S & I & A)].
        -- inversion E; subst. rewrite String.eqb_refl. auto.
        -- apply orb_false_iff in S as (N & S).
           rewrite N. auto.
      * intros (S & I & A).
        destruct (String.eqb_spec k k0) as [->|N].
        -- left. congruence.
        -- right. split; [now rewrite S|]. split; [|exact A].
           destruct I as [E|I]; [congruence | exact I].
Qed.

(** X13. The sensor tiles are the metrics of the summary whose name does
    not contain ["_error_flag"] (anywhere in the name, not only at its
    end), each with its value: every tile shown is such a metric, and
    every such metric has its tile; hence a click on a tile never selects
    an error-flag column. *)
Theorem sensor_tiles_skip_error_flags (summary : value) (fs : list (string * value)) :
  get_prop "metrics" summary = Ok (VObj fs) ->
  exists tiles,
    DashboardView.sensor_tiles summary = Ok tiles /\
    (forall k v,
        In (Some (k, v)) tiles <->
        In k (map fst fs) /\ assoc k fs = v /\
        DashboardView.includes "_error_flag" k = false).
Proof.
  intros H. unfold DashboardView.sensor_tiles. rewrite H. simpl.
  eexists. split; [reflexivity|].
  intros k v. rewrite in_map_iff. unfold DashboardView.own_entries. split.
  - intros ([k' v'] & E & I). unfold DashboardView.sensor_tile in E.
    destruct (DashboardView.includes "_error_flag" k') eqn:F; [discriminate|].
    inversion E; subst. apply entries_unseen_In in I as (_ & I & A). auto.
  - intros (I & A & F). exists (k, v). split.
    + unfold DashboardView.sensor_tile. now rewrite F.
    + apply entries_unseen_In. auto.
Qed.

Lemma sensor_tiles_skip_error_flags_witness :
  exists tiles,
    DashboardView.sensor_tiles
      (VObj [("metrics", VObj [("z_rms", jnum 2); ("z_rms_error_flag", jnum 0)])])
      = Ok tiles /\
    (In (Some ("z_rms", jnum 2)) tiles) .
Proof.
  destruct (sensor_tiles_skip_error_flags
              (VObj [("metrics", VObj [("z_rms", jnum 2); ("z_rms_error_flag", jnum 0)])])
              [("z_rms", jnum 2); ("z_rms_error_flag", jnum 0)] eq_refl)
    as (tiles & E & H).
  exists tiles. split; [exact E|].
  apply H. split; [now left | split; reflexivity].
Defined.

(** X14. The render reads [summary.metrics] without a guard: with a
    summary that has no [metrics] (or a [null] one) both the severity
    chart's props and the sensor tiles throw. With a [metrics] object the
    severity chart gets [z_rms] and [x_rms], each replaced by 0 when it
    is missing (or falsy). *)
Theorem render_needs_metrics (summary : value) :
  (get_prop "metrics" summary = Ok VUndefined \/
   get_prop "metrics" summary = Ok VNull ->
     DashboardView.iso_props summary = Throw TypeError /\
     DashboardView.sensor_tiles summary = Throw TypeError) /\
  (forall fs,
      get_prop "metrics" summary = Ok (VObj fs) ->
      DashboardView.iso_props summary =
        Ok (or_else (assoc "z_rms" fs) (VNum (Fin 0%Q)),
            or_else (assoc "x_rms" fs) (VNum (Fin 0%Q)))) /\
  (forall fs,
      get_prop "metrics" summary = Ok (VObj fs) ->
      assoc "z_rms" fs = VUndefined ->
      assoc "x_rms" fs = VUndefined ->
      DashboardView.iso_props summary = Ok (VNum (Fin 0%Q), VNum (Fin 0%Q))).
Proof.
  unfold DashboardView.iso_props, DashboardView.sensor_tiles.
  split; [|split].
  - intros [H | H]; rewrite H; split; reflexivity.
  - intros fs H. rewrite H. reflexivity.
  - intros fs H Z X. rewrite H. simpl. rewrite Z, X. reflexivity.
Qed.

Lemma render_needs_metrics_witness :
  DashboardView.iso_props epoch_summary = Throw TypeError /\
  DashboardView.sensor_tiles epoch_summary = Throw TypeError.
Proof.
  destruct (render_needs_metrics epoch_summary) as (H & _).
  apply H. left. reflexivity.
Defined.

(* ================================================================== *)
(** * The size of the re-encoded image                                  *)
(* ================================================================== *)

Section Resize.
Context (rnd : Q -> Q).
(** Rounding to the nearest double: monotone, exact at 0, and, between
    [2^-64] and [2^64], off by at most one part in [2^53]. *)
Hypothesis rnd_monotone : forall x y, (x <= y)%Q -> (rnd x <= rnd y)%Q.
Hypothesis rnd_zero : (rnd 0 == 0)%Q.
Hypothesis rnd_error :
  forall x, ((1 # 18446744073709551616) <= x)%Q -> (x <= 18446744073709551616)%Q ->
    (x * (1 - (1 # 9007199254740992)) <= rnd x)%Q /\
    (rnd x <= x * (1 + (1 # 9007199254740992)))%Q.

(** The shorter side after scaling by [1024 / long]: less than 1025. *)
Lemma scaled_side_bound (short long : Q) :
  (short == 0 \/ 1 <= short)%Q -> (short <= long)%Q ->
  (1024 < long)%Q -> (long <= 4294967296)%Q ->
  (0 <= rnd (short * rnd (1024 / long)))%Q /\
  (rnd (short * rnd (1024 / long)) < 1025)%Q.
Proof.
  intros Hs Hl Hb Hmax.
  assert (Lpos : (0 < long)%Q) by lra.
  set (q := (1024 / long)%Q).
  assert (Hq : (q * long == 1024)%Q).
  { unfold q. rewrite Qmult_comm. apply Qmult_div_r.
    intro E. rewrite E in Lpos. exact (Qlt_irrefl 0 Lpos). }
  assert (Q0 : (0 <= q)%Q).
  { unfold q. apply Qle_shift_div_l; lra. }
  assert (Qlo : ((1 # 4194304) <= q)%Q) by nra.
  assert (Qhi : (q <= 1)%Q) by nra.
  destruct (rnd_error q) as (Rlo & Rhi); [lra | lra |].
  assert (r0 : (0 <= rnd q)%Q) by nra.
  destruct Hs as [Z | P1].
  - assert (E : (short * rnd q == 0)%Q) by (rewrite Z; ring).
    assert (U : (rnd (short * rnd q) <= rnd 0)%Q) by (apply rnd_monotone; lra).
    assert (L : (rnd 0 <= rnd (short * rnd q))%Q) by (apply rnd_monotone; lra).
    split; lra.
  - assert (Plo : (rnd q <= short * rnd q)%Q) by nra.
    assert (B : (short * rnd q <= 1024 * (1 + (1 # 9007199254740992)))%Q).
    { apply Qnot_lt_le. intros C.
      assert ((short * rnd q) * long <= 1024 * (1 + (1 # 9007199254740992)) * long)%Q
        by nra.
      nra. }
    destruct (rnd_error (short * rnd q)) as (_ & R2); [nra | lra |].
    split; [|nra].
    rewrite <- rnd_zero. apply rnd_monotone. lra.
Qed.

(** X15. The canvas the image is re-encoded on is never larger than 1024
    by 1024, whatever the floating-point rounding of the two scalings
    does: an image that fits is kept at its size, and an image that does
    not gets its longer side set to exactly 1024 and its other side to at
    most 1024. (The sides of an image are below [2^32].) *)
Theorem canvas_within_max_dimension (w h : nat) :
  (Z.of_nat w <= 4294967296)%Z ->
  (Z.of_nat h <= 4294967296)%Z ->
  (0 <= fst (ImageUpload.canvas_size rnd (inject_Z (Z.of_nat w)) (inject_Z (Z.of_nat h)))
     <= 1024)%Z /\
  (0 <= snd (ImageUpload.canvas_size rnd (inject_Z (Z.of_nat w)) (inject_Z (Z.of_nat h)))
     <= 1024)%Z /\
  (w <= 1024 -> h <= 1024 ->
     ImageUpload.canvas_size rnd (inject_Z (Z.of_nat w)) (inject_Z (Z.of_nat h))
       = (Z.of_nat w, Z.of_nat h)) /\
  (h < w -> 1024 < w ->
     fst (ImageUpload.canvas_size rnd (inject_Z (Z.of_nat w)) (inject_Z (Z.of_nat h)))
       = 1024%Z) /\
  (w <= h -> 1024 < h ->
     snd (ImageUpload.canvas_size rnd (inject_Z (Z.of_nat w)) (inject_Z (Z.of_nat h)))
       = 1024%Z).
Proof.
  intros Wmax Hmax.
  set (W := inject_Z (Z.of_nat w)). set (H := inject_Z (Z.of_nat h)).
  assert (Nat01 : forall n : nat,
            (inject_Z (Z.of_nat n) == 0 \/ 1 <= inject_Z (Z.of_nat n))%Q).
  { intros [|n]; [left; reflexivity | right].
    change 1%Q with (inject_Z 1). rewrite <- Zle_Qle. lia. }
  assert (Wgt : forall k : Z, negb (Qle_bool W (inject_Z k)) = true <-> (k < Z.of_nat w)%Z).
  { intros k. rewrite negb_true_iff. unfold W. split; intros E.
    - destruct (Z_lt_le_dec k (Z.of_nat w)) as [L|L]; [exact L|].
      rewrite Zle_Qle in L. apply Qle_bool_iff in L. congruence.
    - destruct (Qle_bool (inject_Z (Z.of_nat w)) (inject_Z k)) eqn:B; [|reflexivity].
      apply Qle_bool_iff in B. rewrite <- Zle_Qle in B. lia. }
  assert (Hgt : forall k : Z, negb (Qle_bool H (inject_Z k)) = true <-> (k < Z.of_nat h)%Z).
  { intros k. rewrite negb_true_iff. unfold H. split; intros E.
    - destruct (Z_lt_le_dec k (Z.of_nat h)) as [L|L]; [exact L|].
      rewrite Zle_Qle in L. apply Qle_bool_iff in L. congruence.
    - destruct (Qle_bool (inject_Z (Z.of_nat h)) (inject_Z k)) eqn:B; [|reflexivity].
      apply Qle_bool_iff in B. rewrite <- Zle_Qle in B. lia. }
  assert (Fl : forall x : Q, (0 <= x)%Q -> (x < 1025)%Q -> (0 <= Qfloor x <= 1024)%Z).
  { intros x X0 X1. split.
    - change 0%Z with (Qfloor 0). now apply Qfloor_resp_le.
    - assert (L : (inject_Z (Qfloor x) < inject_Z 1025)%Q).
      { apply Qle_lt_trans with x; [apply Qfloor_le | exact X1]. }
      rewrite <- Zlt_Qlt in L. lia. }
  unfold ImageUpload.canvas_size, ImageUpload.resize, ImageUpload.MAX_DIMENSION.
  fold W H.
  destruct (negb (Qle_bool W H)) eqn:C1.
  - (* width > height *)
    assert (Lwh : (Z.of_nat h < Z.of_nat w)%Z).
    { unfold H in C1. now apply (Wgt (Z.of_nat h)). }
    destruct (negb (Qle_bool W (inject_Z 1024))) eqn:C2; cbn [andb].
    + apply Wgt in C2.
      destruct (scaled_side_bound H W (Nat01 h)) as (S0 & S1).
      { unfold H, W. rewrite <- Zle_Qle. lia. }
      { unfold W. change 1024%Q with (inject_Z 1024). rewrite <- Zlt_Qlt. lia. }
      { unfold W. change 4294967296%Q with (inject_Z 4294967296).
        rewrite <- Zle_Qle. lia. }
      cbn [fst snd]. rewrite Qfloor_Z.
      change (inject_Z 1024) with 1024%Q.
      pose proof (Fl _ S0 S1).
      repeat split; try lia.
    + assert (Lw : (Z.of_nat w <= 1024)%Z).
      { destruct (Z_lt_le_dec 1024 (Z.of_nat w)) as [L|L]; [|exact L].
        apply Wgt in L. congruence. }
      destruct (negb (Qle_bool H (inject_Z 1024))) eqn:C3.
      * apply Hgt in C3. lia.
      * cbn [fst snd]. unfold W, H. rewrite !Qfloor_Z. repeat split; lia.
  - (* width <= height *)
    assert (Lwh : (Z.of_nat w <= Z.of_nat h)%Z).
    { destruct (Z_lt_le_dec (Z.of_nat h) (Z.of_nat w)) as [L|L]; [|exact L].
      unfold H in C1. apply (Wgt (Z.of_nat h)) in L. congruence. }
    cbn [andb].
    destruct (negb (Qle_bool H (inject_Z 1024))) eqn:C3.
    + apply Hgt in C3.
      destruct (scaled_side_bound W H (Nat01 w)) as (S0 & S1).
      { unfold H, W. rewrite <- Zle_Qle. lia. }
      { unfold H. change 1024%Q with (inject_Z 1024). rewrite <- Zlt_Qlt. lia. }
      { unfold H. change 4294967296%Q with (inject_Z 4294967296).
        rewrite <- Zle_Qle. lia. }
      cbn [fst snd]. rewrite Qfloor_Z.
      change (inject_Z 1024) with 1024%Q.
      pose proof (Fl _ S0 S1).
      repeat split; try lia.
    + assert (Lh : (Z.of_nat h <= 1024)%Z).
      { destruct (Z_lt_le_dec 1024 (Z.of_nat h)) as [L|L]; [|exact L].
        apply Hgt in L. congruence. }
      cbn [fst snd]. unfold W, H. rewrite !Qfloor_Z. repeat split; lia.
Qed.

End Resize.

Lemma canvas_within_max_dimension_witness :
  ImageUpload.canvas_size (fun x => x) (inject_Z (Z.of_nat 2048)) (inject_Z (Z.of_nat 1024))
    = (1024%Z, 512%Z) /\
  (0 <= 512 <= 1024)%Z.
Proof.
  split; [reflexivity|].
  assert (M : forall x y : Q, (x <= y)%Q -> (x <= y)%Q) by auto.
  assert (Z0 : (0 == 0)%Q) by reflexivity.
  assert (E : forall x : Q,
             ((1 # 18446744073709551616) <= x)%Q -> (x <= 18446744073709551616)%Q ->
             (x * (1 - (1 # 9007199254740992)) <= x)%Q /\
             (x <= x * (1 + (1 # 9007199254740992)))%Q)
    by (intros x Hx _; split; nra).
  destruct (canvas_within_max_dimension (fun x => x) M Z0 E 2048 1024)
    as (_ & H & _).
  - vm_compute. discriminate.
  - vm_compute. discriminate.
  - exact H.
Defined.

(* ================================================================== *)
(** * The axis of the severity chart                                    *)
(* ================================================================== *)

Section SeverityAxis.
Context (rnd : Q -> Q).
(** Rounding to the nearest double, between [2^-64] and [2^64]: off by at
    most one part in [2^53]. *)
Hypothesis rnd_error :
  forall x, ((1 # 18446744073709551616) <= x)%Q -> (x <= 18446744073709551616)%Q ->
    (x * (1 - (1 # 9007199254740992)) <= rnd x)%Q /\
    (rnd x <= x * (1 + (1 # 9007199254740992)))%Q.

Lemma maxVal_bounds (z x : Q) :
  ((11 # 2) <= IsoSeverity.maxVal z x)%Q /\
  (z <= IsoSeverity.maxVal z x)%Q /\ (x <= IsoSeverity.maxVal z x)%Q /\
  (IsoSeverity.maxVal z x == z \/ IsoSeverity.maxVal z x == x \/
   IsoSeverity.maxVal z x == (11 # 2))%Q.
Proof.
  unfold IsoSeverity.maxVal, IsoSeverity.Math_max.
  destruct (Qle_bool z x) eqn:A.
  - apply Qle_bool_iff in A.
    destruct (Qle_bool x (11 # 2)) eqn:B.
    + apply Qle_bool_iff in B. repeat split; try lra; right; right; reflexivity.
    + assert (~ (x <= 11 # 2)%Q) by (intros C; apply Qle_bool_iff in C; congruence).
      repeat split; try lra; right; left; reflexivity.
  - assert (~ (z <= x)%Q) by (intros C; apply Qle_bool_iff in C; congruence).
    destruct (Qle_bool z (11 # 2)) eqn:B.
    + apply Qle_bool_iff in B. repeat split; try lra; right; right; reflexivity.
    + assert (~ (z <= 11 # 2)%Q) by (intros C; apply Qle_bool_iff in C; congruence).
      repeat split; try lra; left; reflexivity.
Qed.

(** X18. The axis of the severity chart always reaches beyond both
    readings, whatever the floating-point rounding of [maxVal * 1.1]
    does: its upper end [xAxisMax] is an integer of at least 7 and
    strictly greater than [zRms] and [xRms], so both dots lie inside the
    plotted domain and the last zone (from 4.5) is never empty; when both
    readings are at most 5.5 the axis ends at exactly 7. *)
Theorem severity_axis_covers_readings (zRms xRms : Q) :
  (zRms <= 1152921504606846976)%Q ->
  (xRms <= 1152921504606846976)%Q ->
  (7 <= IsoSeverity.xAxisMax rnd zRms xRms)%Z /\
  (zRms < inject_Z (IsoSeverity.xAxisMax rnd zRms xRms))%Q /\
  (xRms < inject_Z (IsoSeverity.xAxisMax rnd zRms xRms))%Q /\
  ((zRms <= 11 # 2)%Q -> (xRms <= 11 # 2)%Q ->
     IsoSeverity.xAxisMax rnd zRms xRms = 7%Z).
Proof.
  intros Hz Hx. unfold IsoSeverity.xAxisMax.
  destruct (maxVal_bounds zRms xRms) as (M0 & Mz & Mx & Mc).
  set (m := IsoSeverity.maxVal zRms xRms) in *.
  assert (Mhi : (m <= 1152921504606846976)%Q).
  { destruct Mc as [E | [E | E]]; rewrite E; lra. }
  set (p := (m * IsoSeverity.one_point_one)%Q).
  assert (Pm : (p == m * (2476979795053773 # 2251799813685248))%Q) by reflexivity.
  destruct (rnd_error p) as (Rlo & Rhi); [lra | lra |].
  pose proof (Qle_ceiling (rnd p)) as C1.
  pose proof (Qceiling_lt (rnd p)) as C2.
  set (c := Qceiling (rnd p)) in *.
  assert (G : (m < inject_Z c)%Q) by nra.
  split; [|split; [lra | split; [lra|]]].
  - assert (L : (inject_Z 6 < inject_Z c)%Q).
    { change (inject_Z 6) with 6%Q. nra. }
    rewrite <- Zlt_Qlt in L. lia.
  - intros Z5 X5.
    assert (E : (m == 11 # 2)%Q).
    { destruct Mc as [E | [E | E]]; lra. }
    assert (L : (inject_Z 6 < inject_Z c)%Q).
    { change (inject_Z 6) with 6%Q. nra. }
    assert (U : (inject_Z (c - 1) < inject_Z 7)%Q).
    { change (inject_Z 7) with 7%Q. nra. }
    rewrite <- Zlt_Qlt in L, U. lia.
Qed.

End SeverityAxis.

Lemma severity_axis_covers_readings_witness :
  (7 <= IsoSeverity.xAxisMax (fun x => x) (21 # 10) 10)%Z /\
  ((21 # 10) < inject_Z (IsoSeverity.xAxisMax (fun x => x) (21 # 10) 10))%Q.
Proof.
  assert (E : forall x : Q,
             ((1 # 18446744073709551616) <= x)%Q -> (x <= 18446744073709551616)%Q ->
             (x * (1 - (1 # 9007199254740992)) <= x)%Q /\
             (x <= x * (1 + (1 # 9007199254740992)))%Q)
    by (intros x Hx _; split; nra).
  destruct (severity_axis_covers_readings (fun x => x) E (21 # 10) 10)
    as (H1 & H2 & _).
  - vm_compute. discriminate.
  - vm_compute. discriminate.
  - split; [exact H1 | exact H2].
Defined.

(* ================================================================== *)
(** * The guard of sendMessage and the answers of the approval          *)
(* ================================================================== *)

Lemma trimStart_empty (s : string) :
  trimStart s = "" <-> forallb is_space (list_ascii_of_string s) = true.
Proof.
  induction s as [|c s IH]; simpl; [tauto|].
  destruct (is_space c); simpl; [exact IH|].
  split; discriminate.
Qed.

Lemma trimEnd_empty (s : string) :
  trimEnd s = "" <-> forallb is_space (list_ascii_of_string s) = true.
Proof.
  induction s as [|c s IH]; simpl; [tauto|].
  destruct (trimEnd s) as [|c' t] eqn:E.
  - destruct (is_space c); simpl.
    + rewrite <- IH. tauto.
    + split; discriminate.
  - split; [discriminate|]. intros H. apply andb_true_iff in H as (_ & H).
    apply IH in H. discriminate.
Qed.

Lemma trimStart_spaces (s : string) :
  forallb is_space (list_ascii_of_string (trimStart s)) =
  forallb is_space (list_ascii_of_string s).
Proof.
  induction s as [|c s IH]; simpl; [reflexivity|].
  destruct (is_space c) eqn:E; simpl; [exact IH | now rewrite E].
Qed.

Lemma trim_empty (s : string) :
  trim s = "" <-> forallb is_space (list_ascii_of_string s) = true.
Proof.
  unfold trim. rewrite trimEnd_empty, trimStart_spaces. tauto.
Qed.

(** X16. [sendMessage] does nothing exactly when the text box holds only
    white space (or nothing), whatever image is staged and whatever the
    request would have answered: in that case the state is unchanged and
    nothing is posted; in every other case a request is posted, the user's
    message is appended and the loading flag is set. *)
Theorem sendMessage_blank_text (st : state) :
  (forallb is_space (list_ascii_of_string (input st)) = true ->
     sendMessage_start st = (None, st) /\ forall p, sendMessage p st = st) /\
  (forallb is_space (list_ascii_of_string (input st)) = false ->
     exists payload st',
       sendMessage_start st = (Some payload, st') /\
       loading st' = true /\
       List.length (messages st') = S (List.length (messages st))).
Proof.
  split; intros H.
  - apply trim_empty in H.
    pose proof (sendMessage_start_guard st H) as G.
    split; [exact G|]. intros p. unfold sendMessage. now rewrite G.
  - assert (N : trim (input st) <> "").
    { intros E. apply trim_empty in E. congruence. }
    unfold sendMessage_start.
    destruct (truthy (VStr (trim (input st)))) eqn:T.
    + simpl. eexists. eexists. split; [reflexivity|]. split; [reflexivity|].
      simpl. unfold append. rewrite length_app. simpl. lia.
    + apply truthy_VStr in T. contradiction.
Qed.

Lemma sendMessage_blank_text_witness :
  sendMessage_start (setInput "  " image_only) = (None, setInput "  " image_only).
Proof.
  destruct (sendMessage_blank_text (setInput "  " image_only)) as (H & _).
  destruct (H eq_refl) as (G & _). exact G.
Defined.


